(** * OpenCitations API client (src/opencitations/lib.ts)

    A shallow embedding of the client library: the HTTP request executor
    [apiRequest], the six typed operations built on it, the identifier
    normalizers [formatDoi] / [formatIssn] and the two text formatters;
    and of the server entry point (index.ts): the access token and the
    six tool handlers.

    Conventions of the embedding.
    - A JavaScript string is the [string] of its UTF-8 bytes; the
      program concatenates, compares, tests prefixes and cuts at ASCII
      characters, which act on the bytes as they do on the characters.
    - A promise is its outcome: [Resolved v] or [Rejected e]; [await] is
      the bind of that error monad.
    - [fetch] is the environment: a function from the request that was
      built to the outcome of the network exchange.
    - [headers], a JS object used as a dictionary, is a [gmap string string]. *)

From Stdlib Require Import String Ascii List ZArith NArith Bool Lia.
From Stdlib Require Import DecimalString DecimalPos DecimalN.
From stdpp Require Import base option list gmap strings.

Import ListNotations.
Local Open Scope string_scope.

(** stdpp freezes the unfolding of string concatenation; the proofs below
    compute with literal prefixes, so it is let to unfold again. *)
#[local] Arguments String.append !_ _ / : simpl nomatch.

(* ===================================================================== *)
(** * The JavaScript built-ins the library calls                          *)
(* ===================================================================== *)

Module JS.

(** The line feed, written [\n] in the source. *)
Definition LF : ascii := "010"%char.
Definition nl : string := String LF EmptyString.

(** [stripPrefix p s] is [Some r] when [s = p ++ r]. *)
Fixpoint stripPrefix (p s : string) : option string :=
  match p, s with
  | EmptyString, _ => Some s
  | String a p', String b s' =>
      if Ascii.eqb a b then stripPrefix p' s' else None
  | String _ _, EmptyString => None
  end.

(** [String.prototype.startsWith]. *)
Definition startsWith (s p : string) : bool :=
  match stripPrefix p s with Some _ => true | None => false end.

(** [String.prototype.includes]: [sub] occurs somewhere in [s]. *)
Fixpoint includes (s sub : string) : bool :=
  startsWith s sub ||
  match s with
  | EmptyString => false
  | String _ r => includes r sub
  end.

(** [a || b] on strings: the empty string is the only falsy string. *)
Definition or (a b : string) : string :=
  match a with EmptyString => b | String _ _ => a end.

(** [if (x)] on an optional string ([undefined] or a string). *)
Definition truthy (x : option string) : bool :=
  match x with
  | None => false
  | Some EmptyString => false
  | Some (String _ _) => true
  end.

(** [Array.prototype.join]. *)
Fixpoint join (sep : string) (l : list string) : string :=
  match l with
  | [] => ""
  | [x] => x
  | x :: r => x ++ sep ++ join sep r
  end.

(** [Array.prototype.push], on the array as a value. *)
Definition push (l : list string) (x : string) : list string := l ++ [x].

(** [String.prototype.split] at a single character. *)
Fixpoint split (sep : ascii) (s : string) : list string :=
  match s with
  | EmptyString => [""]
  | String c r =>
      if Ascii.eqb c sep then "" :: split sep r
      else match split sep r with
           | [] => [String c ""]
           | h :: t => String c h :: t
           end
  end.

(** A number substituted in a template literal, for the non-negative
    integers the library prints (an HTTP status, an array index + 1):
    its decimal digits. *)
Definition showN (n : N) : string := NilEmpty.string_of_uint (N.to_uint n).

(** The numbers the count operations return. The outcome of [parseInt]
    is a JavaScript number, that is a double: NaN, an integer that a
    double holds exactly ([Num]), negative zero, or an infinity. *)
Inductive number : Type :=
| NaN : number
| Num : Z -> number
| NegZero : number
| PosInfinity : number
| NegInfinity : number.

(** White space skipped by [parseInt], within ASCII: space, tab, line
    feed, vertical tab, form feed, carriage return. *)
Definition isWhite (c : ascii) : bool :=
  let n := nat_of_ascii c in
  Nat.eqb n 32 || (Nat.leb 9 n && Nat.leb n 13).

(** White space beyond ASCII, as it stands in the UTF-8 bytes of the
    string. Two bytes: U+00A0. Three bytes: U+1680, U+2000 to U+200A,
    U+2028, U+2029, U+202F, U+205F, U+3000 and U+FEFF. [isWhiteLead] holds
    of the first byte of each. *)
Definition isWhiteLead (c : ascii) : bool :=
  let n := nat_of_ascii c in
  Nat.eqb n 194 || Nat.eqb n 225 || Nat.eqb n 226 || Nat.eqb n 227 || Nat.eqb n 239.

Definition isWhite2 (c1 c2 : ascii) : bool :=
  Nat.eqb (nat_of_ascii c1) 194 && Nat.eqb (nat_of_ascii c2) 160.

Definition isWhite3 (c1 c2 c3 : ascii) : bool :=
  let n1 := nat_of_ascii c1 in
  let n2 := nat_of_ascii c2 in
  let n3 := nat_of_ascii c3 in
  (Nat.eqb n1 225 && Nat.eqb n2 154 && Nat.eqb n3 128) ||
  (Nat.eqb n1 226 && Nat.eqb n2 128 &&
     ((Nat.leb 128 n3 && Nat.leb n3 138) ||
      Nat.eqb n3 168 || Nat.eqb n3 169 || Nat.eqb n3 175)) ||
  (Nat.eqb n1 226 && Nat.eqb n2 129 && Nat.eqb n3 159) ||
  (Nat.eqb n1 227 && Nat.eqb n2 128 && Nat.eqb n3 128) ||
  (Nat.eqb n1 239 && Nat.eqb n2 187 && Nat.eqb n3 191).

(** The string without its leading white space. *)
Fixpoint trimStart (s : string) : string :=
  match s with
  | EmptyString => s
  | String c1 r1 =>
      if isWhite c1 then trimStart r1
      else if isWhiteLead c1 then
        match r1 with
        | EmptyString => s
        | String c2 r2 =>
            if isWhite2 c1 c2 then trimStart r2
            else match r2 with
                 | EmptyString => s
                 | String c3 r3 => if isWhite3 c1 c2 c3 then trimStart r3 else s
                 end
        end
      else s
  end.

Definition digitVal (c : ascii) : option Z :=
  let n := nat_of_ascii c in
  if Nat.leb 48 n && Nat.leb n 57 then Some (Z.of_nat (n - 48)) else None.

(** The longest prefix of decimal digits, as its value; [acc] is [None]
    until a first digit is read. *)
Fixpoint digits (s : string) (acc : option Z) : option Z :=
  match s with
  | EmptyString => acc
  | String c r =>
      match digitVal c with
      | Some d => digits r (Some (10 * default 0%Z acc + d)%Z)
      | None => acc
      end
  end.

(** The double nearest to the integer [m >= 0], ties to the even
    significand; [None] when it is out of the range of the doubles. Up to
    2^53 every integer is a double; above, [m] is cut to 53 significant
    bits [q] and a rest on [e] bits, which decides the rounding. *)
Definition nearestDouble (m : Z) : option Z :=
  if (m <=? 2 ^ 53)%Z then Some m
  else
    let e := (Z.log2 m - 52)%Z in
    let q := (m / 2 ^ e)%Z in
    let rest := (m mod 2 ^ e)%Z in
    let half := (2 ^ (e - 1))%Z in
    let q' :=
      if (rest <? half)%Z then q
      else if (half <? rest)%Z then (q + 1)%Z
      else if Z.even q then q else (q + 1)%Z in
    let v := (q' * 2 ^ e)%Z in
    if (2 ^ 1024 <=? v)%Z then None else Some v.

(** The number for the sign and the integer read by [parseInt]. *)
Definition fromMathInt (sign m : Z) : number :=
  if (m =? 0)%Z then (if (sign <? 0)%Z then NegZero else Num 0)
  else match nearestDouble m with
       | Some v => Num (sign * v)
       | None => if (sign <? 0)%Z then NegInfinity else PosInfinity
       end.

(** [parseInt(s, 10)]: leading white space, an optional sign, then the
    longest run of digits; NaN when there is no digit, otherwise the
    double nearest to the integer the digits denote (the rounding of V8;
    the language lets an engine approximate past 20 significant digits). *)
Definition parseInt10 (s : string) : number :=
  let t := trimStart s in
  let '(sign, body) :=
    match t with
    | String "-"%char r => ((-1)%Z, r)
    | String "+"%char r => (1%Z, r)
    | _ => (1%Z, t)
    end in
  match digits body None with
  | None => NaN
  | Some m => fromMathInt sign m
  end.

(** The digits JavaScript prints for an integer double [m] above 2^53:
    the fewest digits [s] (at most 17) such that [s] followed by zeros up
    to [n] digits reads back as [m], and of two such the one nearer to
    [m]. [shortestAt m n k] tries [k] digits and gives [s] with the number
    of digits of the whole numeral. *)
Definition shortestAt (m n k : Z) : option (Z * Z) :=
  let p := (10 ^ (n - k))%Z in
  let lo := (m / p)%Z in
  let hi := (lo + 1)%Z in
  let reads (s : Z) : bool :=
    match nearestDouble (s * p) with
    | Some v => (v =? m)%Z
    | None => false
    end in
  let up := if (hi =? 10 ^ k)%Z then (10 ^ (k - 1), n + 1)%Z else (hi, n) in
  match reads lo, reads hi with
  | true, true => if (m - lo * p <=? hi * p - m)%Z then Some (lo, n) else Some up
  | true, false => Some (lo, n)
  | false, true => Some up
  | false, false => None
  end.

Fixpoint shortestFrom (fuel : nat) (m n k : Z) : option (Z * Z * Z) :=
  match fuel with
  | O => None
  | S fuel' =>
      match shortestAt m n k with
      | Some (s, n') => Some (s, n', k)
      | None => shortestFrom fuel' m n (k + 1)%Z
      end
  end.

Fixpoint zeros (n : nat) : string :=
  match n with O => "" | S n' => String "0"%char (zeros n') end.

(** The numeral of a non-negative integer double: all its digits up to
    2^53; above, the shortest digits, filled with zeros when the numeral
    has at most 21 digits and in exponent form otherwise. *)
Definition showMagnitude (m : Z) : string :=
  if (m <=? 2 ^ 53)%Z then showN (Z.to_N m)
  else
    let n := Z.of_nat (String.length (showN (Z.to_N m))) in
    match shortestFrom 17 m n 1 with
    | None => showN (Z.to_N m)
    | Some (s, n', k) =>
        let ds := showN (Z.to_N s) in
        if (n' <=? 21)%Z then ds ++ zeros (Z.to_nat (n' - k))
        else match ds with
             | EmptyString => ds
             | String d EmptyString =>
                 String d "" ++ "e+" ++ showN (Z.to_N (n' - 1))
             | String d more =>
                 String d "" ++ "." ++ more ++ "e+" ++ showN (Z.to_N (n' - 1))
             end
    end.

(** A number substituted in a template literal. *)
Definition showNumber (x : number) : string :=
  match x with
  | NaN => "NaN"
  | Num z => if (z <? 0)%Z then "-" ++ showMagnitude (- z) else showMagnitude z
  | NegZero => "0"
  | PosInfinity => "Infinity"
  | NegInfinity => "-Infinity"
  end.

(** [Array.prototype.find]: the first element that passes the test, or
    [undefined]. *)
Fixpoint find {A : Type} (test : A -> bool) (l : list A) : option A :=
  match l with
  | [] => None
  | x :: r => if test x then Some x else find test r
  end.

(** [a[i]]: the element at index [i], or [undefined]. *)
Definition at_ {A : Type} (l : list A) (i : nat) : option A := nth_error l i.

End JS.

(* ===================================================================== *)
(** * Promises and the network                                            *)
(* ===================================================================== *)

(** What a promise of the library can reject with. *)
Inductive JsError : Type :=
| Error (message : string)   (* [new Error(message)], thrown by apiRequest *)
| TypeError                  (* [fetch] rejects: network-level failure *)
| SyntaxError.               (* [response.json()] rejects: malformed body *)

Inductive Promise (A : Type) : Type :=
| Resolved (v : A)
| Rejected (e : JsError).
Arguments Resolved {A} v.
Arguments Rejected {A} e.

Definition await {A B : Type} (p : Promise A) (k : A -> Promise B) : Promise B :=
  match p with
  | Resolved v => k v
  | Rejected e => Rejected e
  end.

Notation "'let*' x ':=' p 'in' k" := (await p (fun x => k))
  (at level 10, x pattern, p at level 100, k at level 200).

(** The request handed to [fetch]: the URL and the [headers] object. *)
Record Request : Type := mkRequest {
  url : string;
  headers : gmap string string
}.

(** The response of [fetch]. [json] is the outcome of [response.json()]
    seen at the type the caller casts it to: [None] when the body does
    not parse. *)
Record Response (T : Type) : Type := mkResponse {
  status : N;
  statusText : string;
  json : option T
}.
Arguments mkResponse {T} _ _ _.
Arguments status {T} _.
Arguments statusText {T} _.
Arguments json {T} _.

(** [response.ok]: the status lies in 200..299. *)
Definition ok {T : Type} (r : Response T) : bool :=
  (200 <=? status r)%N && (status r <=? 299)%N.

Definition Fetch (T : Type) : Type := Request -> Promise (Response T).

(* ===================================================================== *)
(** * lib.ts                                                              *)
(* ===================================================================== *)

Definition BASE_URL : string := "https://api.opencitations.net/index/v2".

(** ** Types *)

Record Citation : Type := mkCitation {
  oci : string;
  citing : string;
  cited : string;
  creation : string;
  timespan : string;
  journal_sc : string;
  author_sc : string
}.

Record CitationCount : Type := mkCitationCount {
  count : string
}.

(** ** API client *)

(** The [headers] object of [apiRequest], once the optional token has
    been looked at. *)
Definition requestHeaders (accessToken : option string) : gmap string string :=
  let headers : gmap string string := {[ "Accept" := "application/json" ]} in
  if JS.truthy accessToken then
    match accessToken with
    | Some tok => <[ "Authorization" := tok ]> headers
    | None => headers
    end
  else headers.

(** The request [apiRequest] passes to [fetch]. *)
Definition buildRequest (endpoint : string) (accessToken : option string) : Request :=
  {| url := BASE_URL ++ endpoint; headers := requestHeaders accessToken |}.

(** The message of the error thrown on a response that is not ok. *)
Definition failureMessage (st : N) (text : string) : string :=
  "API request failed: " ++ JS.showN st ++ " " ++ text.

Definition apiRequest {T : Type} (fetch : Fetch T)
    (endpoint : string) (accessToken : option string) : Promise T :=
  let* response := fetch (buildRequest endpoint accessToken) in
  if negb (ok response) then
    Rejected (Error (failureMessage (status response) (statusText response)))
  else
    match json response with
    | Some v => Resolved v
    | None => Rejected SyntaxError
    end.

(** ** Public functions *)

Definition getCitationCount (fetch : Fetch (list CitationCount))
    (id : string) (accessToken : option string) : Promise JS.number :=
  let* data := apiRequest fetch ("/citation-count/" ++ id) accessToken in
  match data with
  | [] => Resolved (JS.Num 0)
  | d0 :: _ => Resolved (JS.parseInt10 (count d0))
  end.

Definition getCitations (fetch : Fetch (list Citation))
    (id : string) (accessToken : option string) : Promise (list Citation) :=
  apiRequest fetch ("/citations/" ++ id) accessToken.

Definition getReferenceCount (fetch : Fetch (list CitationCount))
    (id : string) (accessToken : option string) : Promise JS.number :=
  let* data := apiRequest fetch ("/reference-count/" ++ id) accessToken in
  match data with
  | [] => Resolved (JS.Num 0)
  | d0 :: _ => Resolved (JS.parseInt10 (count d0))
  end.

Definition getReferences (fetch : Fetch (list Citation))
    (id : string) (accessToken : option string) : Promise (list Citation) :=
  apiRequest fetch ("/references/" ++ id) accessToken.

(** [null] is [None]. *)
Definition getCitation (fetch : Fetch (list Citation))
    (oci : string) (accessToken : option string) : Promise (option Citation) :=
  let* data := apiRequest fetch ("/citation/" ++ oci) accessToken in
  match data with
  | d0 :: _ => Resolved (Some d0)
  | [] => Resolved None
  end.

Definition getVenueCitationCount (fetch : Fetch (list CitationCount))
    (issn : string) (accessToken : option string) : Promise JS.number :=
  let* data := apiRequest fetch ("/venue-citation-count/" ++ issn) accessToken in
  match data with
  | [] => Resolved (JS.Num 0)
  | d0 :: _ => Resolved (JS.parseInt10 (count d0))
  end.

(** ** Utility functions *)

(** The match of the regular expression [/^https?:\/\/doi\.org\//] at the
    start of [s]: the text after the match, or [None]. The optional [s]
    is tried first (the quantifier is greedy) and given up when the rest
    of the pattern does not follow. The expression has no [i] flag:
    letters match in their own case only. *)
Definition matchDoiUrl (s : string) : option string :=
  match JS.stripPrefix "http" s with
  | None => None
  | Some r =>
      let with_s :=
        match JS.stripPrefix "s" r with
        | Some r' => JS.stripPrefix "://doi.org/" r'
        | None => None
        end in
      match with_s with
      | Some rest => Some rest
      | None => JS.stripPrefix "://doi.org/" r
      end
  end.

(** [doi.replace(/^https?:\/\/doi\.org\//, "")]: the expression is anchored
    and not global, so only a match at the start is removed. *)
Definition removeDoiUrl (doi : string) : string :=
  match matchDoiUrl doi with
  | Some rest => rest
  | None => doi
  end.

Definition formatDoi (doi : string) : string :=
  let doi := removeDoiUrl doi in
  if negb (JS.startsWith doi "doi:") then "doi:" ++ doi else doi.

Definition formatIssn (issn : string) : string :=
  if negb (JS.startsWith issn "issn:") then "issn:" ++ issn else issn.

Definition formatCitationAsText (citation : Citation) : string :=
  let lines :=
    [ "OCI: " ++ oci citation;
      "Citing: " ++ citing citation;
      "Cited: " ++ cited citation;
      "Date: " ++ JS.or (creation citation) "N/A";
      "Timespan: " ++ JS.or (timespan citation) "N/A";
      "Journal self-citation: " ++ JS.or (journal_sc citation) "no";
      "Author self-citation: " ++ JS.or (author_sc citation) "no" ] in
  JS.join JS.nl lines.

(** The callback of [citations.map((c, i) => ...)]. *)
Definition citationBlock (i : nat) (c : Citation) : string :=
  let lines :=
    [ "[" ++ JS.showN (N.of_nat (i + 1)) ++ "] OCI: " ++ oci c;
      "    Citing: " ++ citing c;
      "    Cited: " ++ cited c;
      "    Date: " ++ JS.or (creation c) "N/A" ] in
  let lines :=
    if String.eqb (journal_sc c) "yes"
    then JS.push lines "    (Journal self-citation)" else lines in
  let lines :=
    if String.eqb (author_sc c) "yes"
    then JS.push lines "    (Author self-citation)" else lines in
  JS.join JS.nl lines.

Definition formatCitationsAsText (citations : list Citation) : string :=
  match citations with
  | [] => "No citations found."
  | _ :: _ => JS.join (JS.nl ++ JS.nl) (imap citationBlock citations)
  end.

(* ===================================================================== *)
(** * index.ts: configuration and tool handlers                           *)
(* ===================================================================== *)

(** ** Configuration *)

(** [getAccessToken], on the command line [argv] and the environment
    [env] of the process. *)
Definition getAccessToken (argv : list string) (env : gmap string string)
    : option string :=
  let tokenArg := JS.find (fun arg => JS.startsWith arg "--token=") argv in
  if JS.truthy tokenArg then
    match tokenArg with
    | Some arg => JS.at_ (JS.split "="%char arg) 1
    | None => None
    end
  else env !! "OPENCITATIONS_ACCESS_TOKEN".

(** The lines written to the error stream when the module is loaded. *)
Definition startupWarning (ACCESS_TOKEN : option string) : list string :=
  if negb (JS.truthy ACCESS_TOKEN) then
    [ "Warning: No access token set (optional but recommended)";
      "  Use: --token=YOUR_TOKEN";
      "  Or set OPENCITATIONS_ACCESS_TOKEN environment variable" ]
  else [].

(** ** Tools *)

Record TextContent : Type := mkTextContent {
  type : string;
  text : string
}.

Record ToolResult : Type := mkToolResult {
  content : list TextContent
}.

Definition citation_count (fetch : Fetch (list CitationCount))
    (ACCESS_TOKEN : option string) (doi : string) : Promise ToolResult :=
  let id := formatDoi doi in
  let* count := getCitationCount fetch id ACCESS_TOKEN in
  Resolved {| content :=
    [ {| type := "text";
         text := "Citation count for " ++ doi ++ ": " ++ JS.showNumber count |} ] |}.

Definition get_citations (fetch : Fetch (list Citation))
    (ACCESS_TOKEN : option string) (doi : string) : Promise ToolResult :=
  let id := formatDoi doi in
  let* citations := getCitations fetch id ACCESS_TOKEN in
  let text :=
    if Nat.ltb 0 (length citations)
    then "Found " ++ JS.showN (N.of_nat (length citations)) ++ " citations for "
           ++ doi ++ ":" ++ JS.nl ++ JS.nl ++ formatCitationsAsText citations
    else "No citations found for " ++ doi in
  Resolved {| content := [ {| type := "text"; text := text |} ] |}.

Definition reference_count (fetch : Fetch (list CitationCount))
    (ACCESS_TOKEN : option string) (doi : string) : Promise ToolResult :=
  let id := formatDoi doi in
  let* count := getReferenceCount fetch id ACCESS_TOKEN in
  Resolved {| content :=
    [ {| type := "text";
         text := "Reference count for " ++ doi ++ ": " ++ JS.showNumber count |} ] |}.

Definition get_references (fetch : Fetch (list Citation))
    (ACCESS_TOKEN : option string) (doi : string) : Promise ToolResult :=
  let id := formatDoi doi in
  let* references := getReferences fetch id ACCESS_TOKEN in
  let text :=
    if Nat.ltb 0 (length references)
    then "Found " ++ JS.showN (N.of_nat (length references)) ++ " references in "
           ++ doi ++ ":" ++ JS.nl ++ JS.nl ++ formatCitationsAsText references
    else "No references found for " ++ doi in
  Resolved {| content := [ {| type := "text"; text := text |} ] |}.

(** [args.oci.replace(/^oci:/, "")]. *)
Definition removeOciPrefix (oci : string) : string :=
  match JS.stripPrefix "oci:" oci with
  | Some rest => rest
  | None => oci
  end.

Definition get_citation (fetch : Fetch (list Citation))
    (ACCESS_TOKEN : option string) (oci_arg : string) : Promise ToolResult :=
  let oci := removeOciPrefix oci_arg in
  let* citation := getCitation fetch oci ACCESS_TOKEN in
  match citation with
  | None =>
      Resolved {| content :=
        [ {| type := "text"; text := "No citation found for OCI: " ++ oci_arg |} ] |}
  | Some c =>
      Resolved {| content :=
        [ {| type := "text"; text := formatCitationAsText c |} ] |}
  end.

Definition venue_citation_count (fetch : Fetch (list CitationCount))
    (ACCESS_TOKEN : option string) (issn : string) : Promise ToolResult :=
  let id := formatIssn issn in
  let* count := getVenueCitationCount fetch id ACCESS_TOKEN in
  Resolved {| content :=
    [ {| type := "text";
         text := "Total citations for venue " ++ issn ++ ": " ++ JS.showNumber count |} ] |}.

(* ===================================================================== *)
(** * Notions used in the statements                                      *)
(* ===================================================================== *)

(** ASCII lower-casing, to speak of a URL scheme "in any letter case". *)
Definition lowerChar (c : ascii) : ascii :=
  let n := nat_of_ascii c in
  if Nat.leb 65 n && Nat.leb n 90 then ascii_of_nat (n + 32) else c.

Fixpoint toLowerCase (s : string) : string :=
  match s with
  | EmptyString => EmptyString
  | String c r => String (lowerChar c) (toLowerCase r)
  end.

(** The failure of a request the remote API answered with a status
    outside 200..299: the [Error] thrown by [apiRequest], whose message
    holds the status and the status text. *)
Definition RequestFailure (st : N) (text : string) : JsError :=
  Error (failureMessage st text).

(** The remote API answers the request for [endpoint] with status [st]
    and status text [text]. *)
Definition returnsStatus {T : Type} (fetch : Fetch T)
    (endpoint : string) (accessToken : option string) (st : N) (text : string) : Prop :=
  exists r, fetch (buildRequest endpoint accessToken) = Resolved r /\
            status r = st /\ statusText r = text.

(** The request for [endpoint] gets a successful response whose body
    decodes to [data]. *)
Definition decoded {T : Type} (fetch : Fetch T)
    (endpoint : string) (accessToken : option string) (data : T) : Prop :=
  exists r, fetch (buildRequest endpoint accessToken) = Resolved r /\
            ok r = true /\ json r = Some data.

(** The decode rule of a count operation [op] with endpoint [template]:
    0 on the empty list, otherwise the count string of the first element
    parsed in base 10, whatever follows it. *)
Definition countRule
    (op : Fetch (list CitationCount) -> string -> option string -> Promise JS.number)
    (template : string) : Prop :=
  forall fetch id accessToken,
    (decoded fetch (template ++ id) accessToken [] ->
       op fetch id accessToken = Resolved (JS.Num 0)) /\
    (forall d0 rest, decoded fetch (template ++ id) accessToken (d0 :: rest) ->
       op fetch id accessToken = Resolved (JS.parseInt10 (count d0))).

(** A probe for the request [apiRequest] hands to [fetch]: a remote API
    that answers 200 with the request it received as its body. *)
Definition echo : Fetch Request :=
  fun req => Resolved (mkResponse 200%N "OK" (Some req)).

(** A remote API that answers every request with the same response. *)
Definition always {T : Type} (r : Response T) : Fetch T := fun _ => Resolved r.

Definition notFound {T : Type} : Response T := mkResponse 404%N "Not Found" None.

(** A field rendered with a default: [out] is [dflt] when the field [v] is
    empty and the field itself otherwise; it is never blank. *)
Definition rendered (v dflt out : string) : Prop :=
  (v = "" -> out = dflt) /\ (v <> "" -> out = v) /\ out <> "".

(** No line feed occurs in [s]. *)
Definition lineFree (s : string) : bool := negb (JS.includes s JS.nl).

(** The self-citation annotations of a list entry: one line for each flag
    equal to "yes", the journal's first. *)
Definition annotations (c : Citation) : list string :=
  (if decide (journal_sc c = "yes") then ["    (Journal self-citation)"] else []) ++
  (if decide (author_sc c = "yes") then ["    (Author self-citation)"] else []).

(** Two records for the examples. *)
Definition citationA : Citation :=
  mkCitation "06101801781-06180334099" "doi:10.7717/peerj-cs.421"
             "doi:10.1108/jd-12-2013-0166" "" "" "no" "no".

Definition citationB : Citation :=
  mkCitation "0610-0618" "doi:10.1/a" "doi:10.1/b" "2021-03-10" "P6Y" "yes" "no".

(** The handler resolves to a result made of the single text [t]. *)
Definition toolText (p : Promise ToolResult) (t : string) : Prop :=
  p = Resolved {| content := [ {| type := "text"; text := t |} ] |}.

(** No command-line argument of [argv] is a token flag. *)
Definition noTokenFlag (argv : list string) : Prop :=
  Forall (fun arg => JS.startsWith arg "--token=" = false) argv.

(** The lines of the block of the entry at index [i] in a list. *)
Definition blockLines (i : nat) (c : Citation) : list string :=
  app [ "[" ++ JS.showN (N.of_nat (i + 1)) ++ "] OCI: " ++ oci c;
        "    Citing: " ++ citing c;
        "    Cited: " ++ cited c;
        "    Date: " ++ JS.or (creation c) "N/A" ]
      (annotations c).

(** Groups of lines laid out with one empty line between two groups. *)
Fixpoint separated (groups : list (list string)) : list string :=
  match groups with
  | [] => []
  | [g] => g
  | g :: r => app g ("" :: separated r)
  end.

(** The four fields printed in a list block hold no line feed. *)
Definition blockFieldsLineFree (c : Citation) : Prop :=
  lineFree (oci c) = true /\ lineFree (citing c) = true /\
  lineFree (cited c) = true /\ lineFree (creation c) = true.

(** The string of the given bytes. *)
Definition bytes (l : list nat) : string :=
  fold_right (fun n s => String (ascii_of_nat n) s) EmptyString l.

(** The white space of JavaScript (WhiteSpace and LineTerminator), each
    character in its UTF-8 bytes: tab, line feed, vertical tab, form feed,
    carriage return, space, U+00A0, U+1680, U+2000 to U+200A, U+2028,
    U+2029, U+202F, U+205F, U+3000, U+FEFF. *)
Definition whiteSpaces : list string :=
  map bytes
    [ [9]; [10]; [11]; [12]; [13]; [32]; [194; 160]; [225; 154; 128];
      [226; 128; 128]; [226; 128; 129]; [226; 128; 130]; [226; 128; 131];
      [226; 128; 132]; [226; 128; 133]; [226; 128; 134]; [226; 128; 135];
      [226; 128; 136]; [226; 128; 137]; [226; 128; 138];
      [226; 128; 168]; [226; 128; 169]; [226; 128; 175]; [226; 129; 159];
      [227; 128; 128]; [239; 187; 191] ].

(** The string is empty, or begins with an ASCII character that is
    neither white space, nor a sign, nor a digit: no number can be read
    from it. *)
Definition startsPlain (s : string) : bool :=
  match s with
  | EmptyString => true
  | String c _ =>
      let n := nat_of_ascii c in
      Nat.ltb n 128 && negb (JS.isWhite c) &&
      negb (Nat.eqb n 43) && negb (Nat.eqb n 45) &&
      negb (Nat.leb 48 n && Nat.leb n 57)
  end.

(** The request for [endpoint] fails below [apiRequest] with [e]: the
    network fails ([fetch] rejects with [e]), or the response is ok and
    its body is not valid JSON ([e] is the syntax error). *)
Definition requestFails {T : Type} (fetch : Fetch T)
    (endpoint : string) (accessToken : option string) (e : JsError) : Prop :=
  fetch (buildRequest endpoint accessToken) = Rejected e \/
  (exists r, fetch (buildRequest endpoint accessToken) = Resolved r /\
             ok r = true /\ json r = None /\ e = SyntaxError).

(** Strings made of decimal digits only. *)
Fixpoint allDigits (s : string) : bool :=
  match s with
  | EmptyString => true
  | String c r => bool_decide (is_Some (JS.digitVal c)) && allDigits r
  end.

(* ===================================================================== *)
(** * Running the model on the examples of the documentation             *)
(* ===================================================================== *)

Example ex_formatDoi_raw : formatDoi "10.1108/jd-12-2013-0166" = "doi:10.1108/jd-12-2013-0166".
Proof. reflexivity. Qed.

Example ex_formatDoi_url :
  formatDoi "https://doi.org/10.1108/jd-12-2013-0166" = "doi:10.1108/jd-12-2013-0166".
Proof. reflexivity. Qed.

Example ex_formatIssn_raw : formatIssn "0138-9130" = "issn:0138-9130".
Proof. reflexivity. Qed.

Example ex_formatIssn_prefixed : formatIssn "issn:0138-9130" = "issn:0138-9130".
Proof. reflexivity. Qed.

Example ex_parseInt10_38 : JS.parseInt10 "38" = JS.Num 38.
Proof. reflexivity. Qed.

Example ex_parseInt10_trailing : JS.parseInt10 " -12abc" = JS.Num (-12).
Proof. reflexivity. Qed.

Example ex_parseInt10_nan : JS.parseInt10 "abc" = JS.NaN.
Proof. reflexivity. Qed.

(** Beyond 2^53 the parse gives the nearest double. *)
Example ex_parseInt10_rounds :
  JS.parseInt10 "9007199254740993" = JS.Num 9007199254740992 /\
  JS.parseInt10 "9007199254740995" = JS.Num 9007199254740996.
Proof. split; reflexivity. Qed.

(** A no-break space (U+00A0, bytes 194 160) is white space. *)
Example ex_parseInt10_nbsp :
  JS.parseInt10 (bytes [194; 160] ++ "38") = JS.Num 38.
Proof. reflexivity. Qed.

Example ex_parseInt10_negative_zero : JS.parseInt10 "-0" = JS.NegZero.
Proof. reflexivity. Qed.

(** Numbers as JavaScript prints them. *)
Example ex_showNumber :
  JS.showNumber (JS.Num (2 ^ 64)) = "18446744073709552000" /\
  JS.showNumber (JS.Num (2 ^ 70)) = "1.1805916207174113e+21" /\
  JS.showNumber (JS.parseInt10 "1000000000000000000000") = "1e+21" /\
  JS.showNumber (JS.Num (-38)) = "-38".
Proof. repeat split; vm_compute; reflexivity. Qed.

(* ===================================================================== *)
(** * Facts about the built-ins                                           *)
(* ===================================================================== *)

Section StringFacts.

Lemma stripPrefix_app (p r : string) : JS.stripPrefix p (p ++ r) = Some r.
Proof.
  induction p as [|a p IH]; simpl; [reflexivity|].
  rewrite Ascii.eqb_refl. exact IH.
Qed.

Lemma stripPrefix_Some (p s r : string) :
  JS.stripPrefix p s = Some r -> s = p ++ r.
Proof.
  revert s. induction p as [|a p IH]; intros s H; simpl in *.
  - congruence.
  - destruct s as [|b s]; [discriminate|].
    destruct (Ascii.eqb a b) eqn:E; [|discriminate].
    apply Ascii.eqb_eq in E. subst b. f_equal. apply IH, H.
Qed.

Lemma startsWith_app (p r : string) : JS.startsWith (p ++ r) p = true.
Proof. unfold JS.startsWith. now rewrite stripPrefix_app. Qed.

Lemma startsWith_true (s p : string) :
  JS.startsWith s p = true <-> exists r, s = p ++ r.
Proof.
  unfold JS.startsWith. split.
  - destruct (JS.stripPrefix p s) as [r|] eqn:E; [|discriminate].
    intros _. exists r. now apply stripPrefix_Some.
  - intros [r ->]. now rewrite stripPrefix_app.
Qed.

Lemma startsWith_false (s p : string) :
  JS.startsWith s p = false <-> ~ exists r, s = p ++ r.
Proof.
  rewrite <- startsWith_true. destruct (JS.startsWith s p); split; intros H;
    try reflexivity; try discriminate; try (intros ?; discriminate).
  exfalso. now apply H.
Qed.

Lemma includes_startsWith (s sub : string) :
  JS.startsWith s sub = true -> JS.includes s sub = true.
Proof. intros H. destruct s; simpl; rewrite H; reflexivity. Qed.

Lemma includes_app (p r : string) : JS.includes (p ++ r) p = true.
Proof. apply includes_startsWith, startsWith_app. Qed.

Lemma or_nonempty (a b : string) : b <> "" -> JS.or a b <> "".
Proof. destruct a; simpl; [auto | discriminate]. Qed.

End StringFacts.

(* ===================================================================== *)
(** * Identifier normalization                                            *)
(* ===================================================================== *)

Section Normalizers.

(** What the regular expression accepts: one of the two lower-case
    URL prefixes, at the very start. *)
Lemma matchDoiUrl_Some (s rest : string) :
  matchDoiUrl s = Some rest ->
  s = "http://doi.org/" ++ rest \/ s = "https://doi.org/" ++ rest.
Proof.
  unfold matchDoiUrl.
  destruct (JS.stripPrefix "http" s) as [r|] eqn:E1; [|discriminate].
  apply stripPrefix_Some in E1. subst s.
  destruct (JS.stripPrefix "s" r) as [r'|] eqn:E2.
  - apply stripPrefix_Some in E2. subst r.
    destruct (JS.stripPrefix "://doi.org/" r') as [x|] eqn:E3.
    + intros [= ->]. apply stripPrefix_Some in E3. subst r'. now right.
    + intros H. apply stripPrefix_Some in H. simpl in H. discriminate H.
  - intros H. apply stripPrefix_Some in H. subst r. now left.
Qed.

Lemma matchDoiUrl_http (rest : string) :
  matchDoiUrl ("http://doi.org/" ++ rest) = Some rest.
Proof. reflexivity. Qed.

Lemma matchDoiUrl_https (rest : string) :
  matchDoiUrl ("https://doi.org/" ++ rest) = Some rest.
Proof. reflexivity. Qed.

(** Without a URL prefix at the start, the replacement changes nothing. *)
Lemma removeDoiUrl_no_match (s : string) :
  JS.startsWith s "http://doi.org/" = false ->
  JS.startsWith s "https://doi.org/" = false ->
  removeDoiUrl s = s.
Proof.
  intros H1 H2. unfold removeDoiUrl.
  destruct (matchDoiUrl s) as [rest|] eqn:E; [|reflexivity].
  apply matchDoiUrl_Some in E. destruct E as [-> | ->].
  - now rewrite startsWith_app in H1.
  - now rewrite startsWith_app in H2.
Qed.

Lemma formatDoi_prefixed (r : string) : formatDoi ("doi:" ++ r) = "doi:" ++ r.
Proof. reflexivity. Qed.

Lemma formatDoi_has_prefix (s : string) : exists r, formatDoi s = "doi:" ++ r.
Proof.
  unfold formatDoi.
  destruct (JS.startsWith (removeDoiUrl s) "doi:") eqn:E; simpl.
  - now apply startsWith_true in E.
  - now exists (removeDoiUrl s).
Qed.

Lemma formatIssn_has_prefix (s : string) : exists r, formatIssn s = "issn:" ++ r.
Proof.
  unfold formatIssn.
  destruct (JS.startsWith s "issn:") eqn:E; simpl.
  - now apply startsWith_true in E.
  - now exists s.
Qed.

Lemma formatIssn_prefixed (r : string) : formatIssn ("issn:" ++ r) = "issn:" ++ r.
Proof. reflexivity. Qed.

End Normalizers.

(** C4. For every string [s] that does not start with the prefix "doi:"
    and contains no doi.org URL (neither "http://doi.org/" nor
    "https://doi.org/" occurs anywhere in it), [formatDoi s] is
    ["doi:" ++ s]. *)
Theorem formatDoi_adds_prefix (s : string) :
  JS.startsWith s "doi:" = false ->
  JS.includes s "http://doi.org/" = false ->
  JS.includes s "https://doi.org/" = false ->
  formatDoi s = "doi:" ++ s.
Proof.
  intros Hdoi Hhttp Hhttps. unfold formatDoi.
  rewrite removeDoiUrl_no_match.
  - now rewrite Hdoi.
  - destruct (JS.startsWith s "http://doi.org/") eqn:E; [|reflexivity].
    apply includes_startsWith in E. congruence.
  - destruct (JS.startsWith s "https://doi.org/") eqn:E; [|reflexivity].
    apply includes_startsWith in E. congruence.
Qed.

Lemma formatDoi_adds_prefix_witness :
  formatDoi "10.1108/jd-12-2013-0166" = "doi:" ++ "10.1108/jd-12-2013-0166".
Proof.
  apply (formatDoi_adds_prefix "10.1108/jd-12-2013-0166"); reflexivity.
Defined.

(** C5, as stated, fails: the scheme is matched in lower case only. An
    upper-case scheme is a scheme "in any letter case", yet the URL prefix
    stays in place and "doi:" is put in front of the whole string. *)
Lemma formatDoi_uppercase_scheme_not_stripped :
  toLowerCase "HTTPS://" = "https://" /\
  removeDoiUrl ("HTTPS://" ++ "doi.org/" ++ "10.1/x") <> "10.1/x" /\
  formatDoi ("HTTPS://" ++ "doi.org/" ++ "10.1/x") = "doi:HTTPS://doi.org/10.1/x" /\
  formatDoi ("HTTPS://" ++ "doi.org/" ++ "10.1/x") <> "doi:10.1/x".
Proof. repeat split; try reflexivity; discriminate. Qed.

(** C5, amended. For every string of the form scheme ++ "doi.org/" ++ rest
    where the scheme is exactly "http://" or "https://" (lower case; both
    scheme and host are matched case-sensitively), [formatDoi] strips that
    leading URL prefix, and then puts "doi:" in front of [rest] unless it
    is there already; in particular
    [formatDoi "https://doi.org/10.1/x" = "doi:10.1/x"]. *)
Theorem formatDoi_strips_lowercase_url (scheme rest : string) :
  scheme = "http://" \/ scheme = "https://" ->
  removeDoiUrl (scheme ++ "doi.org/" ++ rest) = rest /\
  formatDoi (scheme ++ "doi.org/" ++ rest)
    = (if JS.startsWith rest "doi:" then rest else "doi:" ++ rest) /\
  formatDoi "https://doi.org/10.1/x" = "doi:10.1/x".
Proof.
  intros [-> | ->].
  - assert (E : removeDoiUrl ("http://" ++ "doi.org/" ++ rest) = rest)
      by (change ("http://" ++ "doi.org/" ++ rest) with ("http://doi.org/" ++ rest);
          unfold removeDoiUrl; now rewrite matchDoiUrl_http).
    split; [exact E|]. split; [|reflexivity].
    unfold formatDoi. rewrite E. now destruct (JS.startsWith rest "doi:").
  - assert (E : removeDoiUrl ("https://" ++ "doi.org/" ++ rest) = rest)
      by (change ("https://" ++ "doi.org/" ++ rest) with ("https://doi.org/" ++ rest);
          unfold removeDoiUrl; now rewrite matchDoiUrl_https).
    split; [exact E|]. split; [|reflexivity].
    unfold formatDoi. rewrite E. now destruct (JS.startsWith rest "doi:").
Qed.

Lemma formatDoi_strips_lowercase_url_witness :
  removeDoiUrl ("http://" ++ "doi.org/" ++ "10.7717/peerj-cs.421") = "10.7717/peerj-cs.421" /\
  formatDoi ("http://" ++ "doi.org/" ++ "10.7717/peerj-cs.421")
    = (if JS.startsWith "10.7717/peerj-cs.421" "doi:"
       then "10.7717/peerj-cs.421" else "doi:" ++ "10.7717/peerj-cs.421") /\
  formatDoi "https://doi.org/10.1/x" = "doi:10.1/x".
Proof.
  apply (formatDoi_strips_lowercase_url "http://" "10.7717/peerj-cs.421").
  left. reflexivity.
Defined.

(** C6. Both normalizers are idempotent, and [formatIssn] returns its
    argument unchanged when it already starts with "issn:" and puts
    "issn:" in front of it otherwise. *)
Theorem normalizers_idempotent (s : string) :
  formatDoi (formatDoi s) = formatDoi s /\
  formatIssn (formatIssn s) = formatIssn s /\
  ((exists r, s = "issn:" ++ r) -> formatIssn s = s) /\
  ((~ exists r, s = "issn:" ++ r) -> formatIssn s = "issn:" ++ s).
Proof.
  split; [|split; [|split]].
  - destruct (formatDoi_has_prefix s) as [r ->]. apply formatDoi_prefixed.
  - destruct (formatIssn_has_prefix s) as [r ->]. apply formatIssn_prefixed.
  - intros [r ->]. apply formatIssn_prefixed.
  - intros H. apply startsWith_false in H. unfold formatIssn. now rewrite H.
Qed.

(* ===================================================================== *)
(** * Parsing decimal numerals                                            *)
(* ===================================================================== *)

Section Numerals.

Local Open Scope Z_scope.

(** Reading digits after a positive value has been accumulated. *)
Lemma digits_of_uint_acc (d : Decimal.uint) (acc : positive) :
  JS.digits (NilEmpty.string_of_uint d) (Some (Z.pos acc))
  = Some (Z.pos (Pos.of_uint_acc d acc)).
Proof.
  revert acc. induction d; intros acc; simpl; try reflexivity;
    unfold JS.digitVal; simpl; rewrite <- IHd; do 2 f_equal; lia.
Qed.

(** Reading digits from zero: leading zeros do not count. *)
Lemma digits_of_uint (d : Decimal.uint) :
  JS.digits (NilEmpty.string_of_uint d) (Some 0) = Some (Z.of_N (Pos.of_uint d)).
Proof.
  induction d; simpl; try reflexivity; unfold JS.digitVal; simpl;
    try exact IHd; apply digits_of_uint_acc.
Qed.

(** The digits of a numeral, read from the start. *)
Lemma digits_numeral (d : Decimal.uint) :
  d <> Decimal.Nil ->
  JS.digits (NilEmpty.string_of_uint d) None = Some (Z.of_N (N.of_uint d)).
Proof.
  intros Hd. destruct d; [congruence| ..];
    simpl; unfold JS.digitVal; simpl;
    lazymatch goal with
    | |- context [JS.digits _ (Some ?z)] =>
        let z' := eval vm_compute in z in change z with z'
    end;
    first [ apply digits_of_uint | apply digits_of_uint_acc ].
Qed.

(** A numeral starts with a digit: nothing is trimmed, no sign is read. *)
Lemma parseInt10_of_uint (d : Decimal.uint) :
  d <> Decimal.Nil ->
  JS.parseInt10 (NilEmpty.string_of_uint d)
  = JS.fromMathInt 1 (Z.of_N (N.of_uint d)).
Proof.
  intros Hd. destruct d; [congruence| ..];
    lazymatch goal with
    | |- JS.parseInt10 ?x = _ =>
        change (JS.parseInt10 x)
          with (match JS.digits x None with
                | Some m => JS.fromMathInt 1 m
                | None => JS.NaN
                end)
    end;
    now rewrite digits_numeral.
Qed.

Lemma parseInt10_signed_uint (d : Decimal.uint) :
  d <> Decimal.Nil ->
  JS.parseInt10 ("-" ++ NilEmpty.string_of_uint d)
    = JS.fromMathInt (-1) (Z.of_N (N.of_uint d)) /\
  JS.parseInt10 ("+" ++ NilEmpty.string_of_uint d)
    = JS.fromMathInt 1 (Z.of_N (N.of_uint d)).
Proof.
  intros Hd. unfold JS.parseInt10. simpl.
  now rewrite (digits_numeral d Hd).
Qed.

Lemma pow53 : Z.of_N (2 ^ 53) = 2 ^ 53.
Proof. reflexivity. Qed.

(** Up to 2^53 every integer is a double. *)
Lemma fromMathInt_exact (m : Z) :
  0 <= m <= 2 ^ 53 ->
  JS.fromMathInt 1 m = JS.Num m /\
  (m <> 0 -> JS.fromMathInt (-1) m = JS.Num (- m)).
Proof.
  intros [H0 H1]. unfold JS.fromMathInt, JS.nearestDouble.
  destruct (Z.eqb_spec m 0) as [->|Hm].
  - split; [reflexivity | congruence].
  - destruct (Z.leb_spec m (2 ^ 53)); [|lia].
    change (1 <? 0) with false. change (-1 <? 0) with true. cbv iota.
    split; [|intros _]; f_equal; lia.
Qed.

Lemma showN_nonnil (n : N) : N.to_uint n <> Decimal.Nil.
Proof.
  destruct n; [discriminate|]. apply DecimalPos.Unsigned.to_uint_nonnil.
Qed.

(** A numeral printed in decimal parses to the number it denotes, as long
    as a double holds that number. *)
Lemma parseInt10_showN (n : N) :
  (n <= 2 ^ 53)%N -> JS.parseInt10 (JS.showN n) = JS.Num (Z.of_N n).
Proof.
  intros Hn. unfold JS.showN.
  rewrite (parseInt10_of_uint _ (showN_nonnil n)), DecimalN.Unsigned.of_to.
  apply fromMathInt_exact. rewrite <- pow53. lia.
Qed.

Lemma parseInt10_signed_showN (n : N) :
  (0 < n <= 2 ^ 53)%N ->
  JS.parseInt10 ("-" ++ JS.showN n) = JS.Num (- Z.of_N n) /\
  JS.parseInt10 ("+" ++ JS.showN n) = JS.Num (Z.of_N n).
Proof.
  intros Hn. unfold JS.showN.
  destruct (parseInt10_signed_uint _ (showN_nonnil n)) as [-> ->].
  rewrite DecimalN.Unsigned.of_to.
  assert (Hz : 0 <= Z.of_N n <= 2 ^ 53) by (rewrite <- pow53; lia).
  destruct (fromMathInt_exact _ Hz) as [-> H]. split; [apply H; lia | reflexivity].
Qed.

(** Leading white space, of any kind and any length, is not read. *)
Lemma trimStart_whiteSpaces :
  Forall (fun w => forall s, JS.trimStart (w ++ s) = JS.trimStart s) whiteSpaces.
Proof. repeat constructor. Qed.

Lemma parseInt10_whiteSpaces (w s : string) :
  In w whiteSpaces -> JS.parseInt10 (w ++ s) = JS.parseInt10 s.
Proof.
  intros Hw. unfold JS.parseInt10.
  now rewrite (proj1 (List.Forall_forall _ _) trimStart_whiteSpaces w Hw s).
Qed.

(** Nothing is read from a string that [startsPlain]. *)
Lemma parseInt10_startsPlain (s : string) :
  startsPlain s = true -> JS.parseInt10 s = JS.NaN.
Proof.
  destruct s as [|c r]; [reflexivity|].
  destruct c as [[] [] [] [] [] [] [] []]; intros H;
    try discriminate H; reflexivity.
Qed.

End Numerals.

(* ===================================================================== *)
(** * The request executor and the six operations                         *)
(* ===================================================================== *)

Section Executor.

Lemma allDigits_string_of_uint (d : Decimal.uint) :
  allDigits (NilEmpty.string_of_uint d) = true.
Proof. induction d; simpl; auto. Qed.

Lemma allDigits_showN (n : N) : allDigits (JS.showN n) = true.
Proof. apply allDigits_string_of_uint. Qed.

Lemma showN_inj (a b : N) : JS.showN a = JS.showN b -> a = b.
Proof.
  unfold JS.showN. intros H.
  apply (f_equal NilEmpty.uint_of_string) in H.
  rewrite !NilEmpty.usu in H. injection H as H.
  apply (f_equal N.of_uint) in H.
  now rewrite !DecimalN.Unsigned.of_to in H.
Qed.

(** A run of digits followed by a space is cut at that space. *)
Lemma digits_space_cut (a a' t t' : string) :
  allDigits a = true -> allDigits a' = true ->
  a ++ " " ++ t = a' ++ " " ++ t' -> a = a' /\ t = t'.
Proof.
  revert a'. induction a as [|c a IH]; intros [|c' a'] Ha Ha' H; simpl in *.
  - injection H as ->. auto.
  - injection H as <- _. discriminate Ha'.
  - injection H as -> _. discriminate Ha.
  - injection H as -> H.
    apply andb_prop in Ha as [_ Ha]. apply andb_prop in Ha' as [_ Ha'].
    destruct (IH a' Ha Ha' H) as [-> ->]. auto.
Qed.

(** The message determines the status and the status text. *)
Lemma failureMessage_inj (st st' : N) (text text' : string) :
  failureMessage st text = failureMessage st' text' -> st = st' /\ text = text'.
Proof.
  unfold failureMessage. intros H.
  apply (f_equal (JS.stripPrefix "API request failed: ")) in H.
  rewrite !stripPrefix_app in H. injection H as H.
  apply digits_space_cut in H; auto using allDigits_showN.
  destruct H as [H ->]. apply showN_inj in H. auto.
Qed.

Lemma ok_false (T : Type) (r : Response T) :
  ok r = false <-> (status r < 200 \/ 299 < status r)%N.
Proof.
  unfold ok. rewrite andb_false_iff, !N.leb_gt. tauto.
Qed.

Section Request.

Context {T : Type} (fetch : Fetch T).
Variables (endpoint : string) (accessToken : option string).

Lemma apiRequest_not_ok (st : N) (text : string) :
  (st < 200 \/ 299 < st)%N ->
  returnsStatus fetch endpoint accessToken st text ->
  apiRequest fetch endpoint accessToken = Rejected (RequestFailure st text).
Proof.
  intros Hst (r & Hr & <- & <-). apply ok_false in Hst.
  unfold apiRequest. rewrite Hr. simpl. now rewrite Hst.
Qed.

Lemma apiRequest_decoded (data : T) :
  decoded fetch endpoint accessToken data ->
  apiRequest fetch endpoint accessToken = Resolved data.
Proof.
  intros (r & Hr & Hok & Hjson).
  unfold apiRequest. rewrite Hr. simpl. now rewrite Hok, Hjson.
Qed.

(** [apiRequest] consults the network at the request it builds only. *)
Lemma apiRequest_sends (fetch' : Fetch T) :
  fetch (buildRequest endpoint accessToken) = fetch' (buildRequest endpoint accessToken) ->
  apiRequest fetch endpoint accessToken = apiRequest fetch' endpoint accessToken.
Proof. unfold apiRequest. now intros ->. Qed.

End Request.

(** The probe hands back the request that was built. *)
Lemma apiRequest_echo (endpoint : string) (accessToken : option string) :
  apiRequest echo endpoint accessToken = Resolved (buildRequest endpoint accessToken).
Proof. reflexivity. Qed.

End Executor.

(** C1. For every endpoint path and optional token, when the remote API
    answers with a status outside 200..299, [apiRequest] and each of the
    six operations reject with the request failure that carries that
    status and its status text (both can be read back from it); no value,
    default or empty, is returned. *)
Theorem non2xx_rejects (id : string) (accessToken : option string)
    (st : N) (text : string) :
  (st < 200 \/ 299 < st)%N ->
  (forall (T : Type) (fetch : Fetch T) endpoint,
      returnsStatus fetch endpoint accessToken st text ->
      apiRequest fetch endpoint accessToken = Rejected (RequestFailure st text)) /\
  (forall fetch, returnsStatus fetch ("/citation-count/" ++ id) accessToken st text ->
      getCitationCount fetch id accessToken = Rejected (RequestFailure st text)) /\
  (forall fetch, returnsStatus fetch ("/citations/" ++ id) accessToken st text ->
      getCitations fetch id accessToken = Rejected (RequestFailure st text)) /\
  (forall fetch, returnsStatus fetch ("/reference-count/" ++ id) accessToken st text ->
      getReferenceCount fetch id accessToken = Rejected (RequestFailure st text)) /\
  (forall fetch, returnsStatus fetch ("/references/" ++ id) accessToken st text ->
      getReferences fetch id accessToken = Rejected (RequestFailure st text)) /\
  (forall fetch, returnsStatus fetch ("/citation/" ++ id) accessToken st text ->
      getCitation fetch id accessToken = Rejected (RequestFailure st text)) /\
  (forall fetch, returnsStatus fetch ("/venue-citation-count/" ++ id) accessToken st text ->
      getVenueCitationCount fetch id accessToken = Rejected (RequestFailure st text)) /\
  (forall st' text', RequestFailure st text = RequestFailure st' text' ->
      st = st' /\ text = text').
Proof.
  intros Hst.
  repeat match goal with |- _ /\ _ => split end.
  - intros T fetch endpoint H. now apply apiRequest_not_ok.
  - intros fetch H. unfold getCitationCount.
    now rewrite (apiRequest_not_ok _ _ _ _ _ Hst H).
  - intros fetch H. now apply apiRequest_not_ok.
  - intros fetch H. unfold getReferenceCount.
    now rewrite (apiRequest_not_ok _ _ _ _ _ Hst H).
  - intros fetch H. now apply apiRequest_not_ok.
  - intros fetch H. unfold getCitation.
    now rewrite (apiRequest_not_ok _ _ _ _ _ Hst H).
  - intros fetch H. unfold getVenueCitationCount.
    now rewrite (apiRequest_not_ok _ _ _ _ _ Hst H).
  - intros st' text' H. apply failureMessage_inj.
    exact (f_equal (fun e => match e with Error m => m | _ => "" end) H).
Qed.

Lemma non2xx_rejects_witness :
  getCitationCount (always notFound) "doi:10.1/x" (Some "tok")
    = Rejected (Error "API request failed: 404 Not Found") /\
  getCitations (always notFound) "doi:10.1/x" (Some "tok")
    = Rejected (Error "API request failed: 404 Not Found") /\
  getReferenceCount (always notFound) "doi:10.1/x" (Some "tok")
    = Rejected (Error "API request failed: 404 Not Found") /\
  getReferences (always notFound) "doi:10.1/x" (Some "tok")
    = Rejected (Error "API request failed: 404 Not Found") /\
  getCitation (always notFound) "doi:10.1/x" (Some "tok")
    = Rejected (Error "API request failed: 404 Not Found") /\
  getVenueCitationCount (always notFound) "doi:10.1/x" (Some "tok")
    = Rejected (Error "API request failed: 404 Not Found").
Proof.
  assert (Hst : (404 < 200 \/ 299 < 404)%N) by lia.
  destruct (non2xx_rejects "doi:10.1/x" (Some "tok") 404 "Not Found" Hst)
    as (_ & H1 & H2 & H3 & H4 & H5 & H6 & _).
  assert (R : forall T e, returnsStatus (always (@notFound T)) e (Some "tok") 404 "Not Found")
    by (intros T e; exists notFound; unfold always; auto).
  exact (conj (H1 _ (R _ _)) (conj (H2 _ (R _ _)) (conj (H3 _ (R _ _))
        (conj (H4 _ (R _ _)) (conj (H5 _ (R _ _)) (H6 _ (R _ _))))))).
Defined.

(** C2. On a successfully decoded response, each of the three count
    operations returns 0 when the list is empty and otherwise the count
    string of the first element parsed as a base-10 integer; the elements
    after the first play no part. The parse is that of [parseInt]: the
    decimal numeral of a number up to 2^53 gives that number, with a sign
    in front the signed number; beyond 2^53 the result is the nearest
    double (9007199254740993 gives 9007199254740992); leading white space
    of every kind is skipped; a string that is empty or begins with a
    plain character gives NaN. *)
Theorem count_operations_decode :
  countRule getCitationCount "/citation-count/" /\
  countRule getReferenceCount "/reference-count/" /\
  countRule getVenueCitationCount "/venue-citation-count/" /\
  (forall n : N, (n <= 2 ^ 53)%N -> JS.parseInt10 (JS.showN n) = JS.Num (Z.of_N n)) /\
  (forall n : N, (0 < n <= 2 ^ 53)%N ->
     JS.parseInt10 ("-" ++ JS.showN n) = JS.Num (- Z.of_N n) /\
     JS.parseInt10 ("+" ++ JS.showN n) = JS.Num (Z.of_N n)) /\
  JS.parseInt10 "9007199254740993" = JS.Num 9007199254740992 /\
  (forall w s : string, In w whiteSpaces -> JS.parseInt10 (w ++ s) = JS.parseInt10 s) /\
  (forall s : string, startsPlain s = true -> JS.parseInt10 s = JS.NaN).
Proof.
  assert (R : forall op template,
             (forall fetch id tok,
                op fetch id tok =
                (let* data := apiRequest fetch (template ++ id) tok in
                 match data with
                 | [] => Resolved (JS.Num 0)
                 | d0 :: _ => Resolved (JS.parseInt10 (count d0))
                 end)) ->
             countRule op template).
  { intros op template Hop fetch id tok.
    split; intros; rewrite Hop;
      match goal with
      | H : decoded _ _ _ _ |- _ => now rewrite (apiRequest_decoded _ _ _ _ H)
      end. }
  split; [apply R; reflexivity|].
  split; [apply R; reflexivity|].
  split; [apply R; reflexivity|].
  split; [exact parseInt10_showN|].
  split; [exact parseInt10_signed_showN|].
  split; [reflexivity|].
  split; [exact parseInt10_whiteSpaces | exact parseInt10_startsPlain].
Qed.

(** C3. On a successfully decoded response, [getCitation] resolves to
    [null] (here [None]) when the list is empty: a value, not a rejection;
    and to the first element when the list is not empty. *)
Theorem getCitation_decode (fetch : Fetch (list Citation))
    (id : string) (accessToken : option string) :
  (decoded fetch ("/citation/" ++ id) accessToken [] ->
     getCitation fetch id accessToken = Resolved None) /\
  (forall c rest, decoded fetch ("/citation/" ++ id) accessToken (c :: rest) ->
     getCitation fetch id accessToken = Resolved (Some c)).
Proof.
  split; intros; unfold getCitation;
    match goal with
    | H : decoded _ _ _ _ |- _ => now rewrite (apiRequest_decoded _ _ _ _ H)
    end.
Qed.

Lemma count_operations_decode_witness :
  getReferenceCount
    (always (mkResponse 200%N "OK" (Some [mkCitationCount "38"; mkCitationCount "7"])))
    "doi:10.7717/peerj-cs.421" None
  = Resolved (JS.parseInt10 "38").
Proof.
  refine (proj2 (proj1 (proj2 count_operations_decode) _ _ _)
                (mkCitationCount "38") [mkCitationCount "7"] _).
  eexists. repeat split.
Defined.

Lemma getCitation_decode_witness :
  getCitation (always (mkResponse 200%N "OK" (Some [citationB; citationA])))
              "0610-0618" (Some "tok")
  = Resolved (Some citationB).
Proof.
  refine (proj2 (getCitation_decode _ _ _) citationB [citationA] _).
  eexists. repeat split.
Defined.

(** The examples of the specification: body [[]] gives 0 and body
    [[{"count":"38"}]] gives 38; a single record is handed back. *)
Example ex_count_empty :
  getCitationCount (always (mkResponse 200%N "OK" (Some []))) "doi:10.1/x" None
  = Resolved (JS.Num 0).
Proof. reflexivity. Qed.

Example ex_count_38 :
  getVenueCitationCount
    (always (mkResponse 200%N "OK" (Some [mkCitationCount "38"; mkCitationCount "7"])))
    "issn:0138-9130" None
  = Resolved (JS.Num 38).
Proof. reflexivity. Qed.

Example ex_getCitation_empty :
  getCitation (always (mkResponse 200%N "OK" (Some []))) "06101801781-06180334099" None
  = Resolved None.
Proof. reflexivity. Qed.

(** A body that does not parse is a rejection of its own kind. *)
Example ex_malformed_body :
  getCitations (always (mkResponse 200%N "OK" None)) "doi:10.1/x" None
  = Rejected SyntaxError.
Proof. reflexivity. Qed.

Section Headers.

Lemma requestHeaders_truthy (tok : string) :
  tok <> "" ->
  requestHeaders (Some tok) = <[ "Authorization" := tok ]> {[ "Accept" := "application/json" ]}.
Proof. destruct tok; [congruence | reflexivity]. Qed.

Lemma requestHeaders_falsy (accessToken : option string) :
  JS.truthy accessToken = false ->
  requestHeaders accessToken = {[ "Accept" := "application/json" ]}.
Proof. unfold requestHeaders. now intros ->. Qed.

Lemma no_authorization_by_default :
  ({[ "Accept" := "application/json" ]} : gmap string string) !! "Authorization" = None.
Proof. now apply lookup_singleton_ne. Qed.

End Headers.

(** C7, as stated, fails: a token may be supplied and be the empty
    string; the request [apiRequest] builds then has no Authorization
    header, where the claim wants one equal to the token. *)
Lemma empty_token_header_not_sent :
  exists req,
    apiRequest echo "/citations/doi:10.1/x" (Some "") = Resolved req /\
    headers req !! "Authorization" <> Some "".
Proof.
  eexists. split; [apply apiRequest_echo|].
  rewrite (requestHeaders_falsy (Some "") eq_refl : headers (buildRequest _ _) = _).
  now rewrite no_authorization_by_default.
Qed.

(** C7, amended. In every request built by [apiRequest] (the request the
    probe receives), the Authorization header is present and equal to the
    supplied token, verbatim, when a non-empty token is supplied, and is
    absent when no token is supplied. *)
Theorem authorization_header (endpoint : string) (accessToken : option string) :
  exists req,
    apiRequest echo endpoint accessToken = Resolved req /\
    (forall tok, accessToken = Some tok -> tok <> "" ->
       headers req !! "Authorization" = Some tok) /\
    (accessToken = None -> headers req !! "Authorization" = None).
Proof.
  exists (buildRequest endpoint accessToken).
  split; [apply apiRequest_echo|]. split.
  - intros tok -> Hne. simpl. rewrite (requestHeaders_truthy tok Hne).
    apply lookup_insert_eq.
  - intros ->. exact no_authorization_by_default.
Qed.

Lemma authorization_header_witness :
  exists req,
    apiRequest echo "/citations/doi:10.1/x" (Some "s3cret") = Resolved req /\
    headers req !! "Authorization" = Some "s3cret".
Proof.
  destruct (authorization_header "/citations/doi:10.1/x" (Some "s3cret"))
    as (req & E & H & _).
  exists req. split; [exact E|].
  apply (H "s3cret"); [reflexivity | discriminate].
Defined.

(** C10. When the supplied token is the empty string, the request
    [apiRequest] builds has no Authorization header: it is the request
    built for an absent token, and the call behaves as without a token. *)
Theorem empty_token_as_absent (endpoint : string) :
  (exists req,
     apiRequest echo endpoint (Some "") = Resolved req /\
     headers req !! "Authorization" = None) /\
  apiRequest echo endpoint (Some "") = apiRequest echo endpoint None /\
  (forall (T : Type) (fetch : Fetch T),
     apiRequest fetch endpoint (Some "") = apiRequest fetch endpoint None).
Proof.
  split; [|split; reflexivity].
  eexists. split; [apply apiRequest_echo|]. exact no_authorization_by_default.
Qed.

(* ===================================================================== *)
(** * Text formatters                                                     *)
(* ===================================================================== *)

Section Lines.

Lemma rendered_or (v dflt : string) : dflt <> "" -> rendered v dflt (JS.or v dflt).
Proof.
  intros Hd. unfold rendered. destruct v; simpl.
  - repeat split; auto. congruence.
  - repeat split; auto; discriminate.
Qed.

Lemma lineFree_cons (c : ascii) (r : string) :
  lineFree (String c r) = true <-> Ascii.eqb c JS.LF = false /\ lineFree r = true.
Proof.
  unfold lineFree.
  change (JS.includes (String c r) JS.nl)
    with (match (if Ascii.eqb JS.LF c then Some r else None) with
          | Some _ => true
          | None => false
          end || JS.includes r JS.nl).
  rewrite (Ascii.eqb_sym JS.LF c).
  destruct (Ascii.eqb c JS.LF); simpl; [|tauto].
  split; [discriminate | intros [? _]; discriminate].
Qed.

Lemma lineFree_app (a b : string) :
  lineFree a = true -> lineFree b = true -> lineFree (a ++ b) = true.
Proof.
  induction a as [|c a IH]; simpl; intros Ha Hb; [exact Hb|].
  apply lineFree_cons in Ha as [Hc Ha]. apply lineFree_cons. auto.
Qed.

Lemma lineFree_or (v dflt : string) :
  lineFree v = true -> lineFree dflt = true -> lineFree (JS.or v dflt) = true.
Proof. destruct v; simpl; auto. Qed.

Lemma split_cons (sep c : ascii) (r : string) :
  JS.split sep (String c r) =
  if Ascii.eqb c sep then "" :: JS.split sep r
  else match JS.split sep r with
       | [] => [String c ""]
       | h :: t => String c h :: t
       end.
Proof. reflexivity. Qed.

Lemma split_lineFree (x : string) :
  lineFree x = true -> JS.split JS.LF x = [x].
Proof.
  induction x as [|c x IH]; intros H; [reflexivity|].
  apply lineFree_cons in H as [Hc H].
  now rewrite split_cons, Hc, (IH H).
Qed.

Lemma split_app_nl (x y : string) :
  lineFree x = true ->
  JS.split JS.LF (x ++ JS.nl ++ y) = x :: JS.split JS.LF y.
Proof.
  induction x as [|c x IH]; intros H.
  - change ("" ++ JS.nl ++ y) with (String JS.LF y).
    now rewrite split_cons, Ascii.eqb_refl.
  - apply lineFree_cons in H as [Hc H].
    change (String c x ++ JS.nl ++ y) with (String c (x ++ JS.nl ++ y)).
    now rewrite split_cons, Hc, (IH H).
Qed.

(** Splitting at line feeds undoes the join of lines without line feed. *)
Lemma split_join (l : list string) :
  l <> [] -> Forall (fun x => lineFree x = true) l ->
  JS.split JS.LF (JS.join JS.nl l) = l.
Proof.
  induction l as [|x [|y r] IH]; intros Hne Hl.
  - congruence.
  - apply split_lineFree. now inversion Hl.
  - inversion Hl as [|? ? Hx Hr]; subst.
    change (JS.join JS.nl (x :: y :: r)) with (x ++ JS.nl ++ JS.join JS.nl (y :: r)).
    rewrite (split_app_nl _ _ Hx). f_equal. apply IH; [discriminate | exact Hr].
Qed.

(** The block of a list entry, with its pushes read as one append. *)
Lemma citationBlock_eq (i : nat) (c : Citation) :
  citationBlock i c =
  JS.join JS.nl
    (app [ "[" ++ JS.showN (N.of_nat (i + 1)) ++ "] OCI: " ++ oci c;
           "    Citing: " ++ citing c;
           "    Cited: " ++ cited c;
           "    Date: " ++ JS.or (creation c) "N/A" ]
         (annotations c)).
Proof.
  unfold citationBlock, annotations, JS.push. cbv zeta.
  destruct (String.eqb_spec (journal_sc c) "yes") as [Ej|Ej];
    destruct (String.eqb_spec (author_sc c) "yes") as [Ea|Ea];
    repeat case_decide; try contradiction; reflexivity.
Qed.

End Lines.

(** C8. For every Citation record, [formatCitationAsText] is seven lines
    in the fixed order OCI, Citing, Cited, Date, Timespan, Journal
    self-citation, Author self-citation, joined by line feeds; an empty
    [creation] or [timespan] is rendered as "N/A" and an empty
    [journal_sc] or [author_sc] as "no", never as a blank value. When no
    field holds a line feed, cutting the text at its line feeds gives back
    exactly these seven lines. *)
Theorem formatCitationAsText_seven_lines (c : Citation) :
  exists d t j a : string,
    rendered (creation c) "N/A" d /\
    rendered (timespan c) "N/A" t /\
    rendered (journal_sc c) "no" j /\
    rendered (author_sc c) "no" a /\
    formatCitationAsText c =
      JS.join JS.nl
        [ "OCI: " ++ oci c; "Citing: " ++ citing c; "Cited: " ++ cited c;
          "Date: " ++ d; "Timespan: " ++ t;
          "Journal self-citation: " ++ j; "Author self-citation: " ++ a ] /\
    (Forall (fun field => lineFree field = true)
            [ oci c; citing c; cited c; creation c; timespan c;
              journal_sc c; author_sc c ] ->
     JS.split JS.LF (formatCitationAsText c) =
        [ "OCI: " ++ oci c; "Citing: " ++ citing c; "Cited: " ++ cited c;
          "Date: " ++ d; "Timespan: " ++ t;
          "Journal self-citation: " ++ j; "Author self-citation: " ++ a ]).
Proof.
  exists (JS.or (creation c) "N/A"), (JS.or (timespan c) "N/A"),
         (JS.or (journal_sc c) "no"), (JS.or (author_sc c) "no").
  repeat match goal with
         | |- rendered _ _ _ /\ _ => split; [apply rendered_or; discriminate|]
         end.
  split; [reflexivity|].
  intros Hf. unfold formatCitationAsText. cbv zeta.
  apply split_join; [discriminate|].
  repeat match goal with
         | H : Forall _ (_ :: _) |- _ => inversion H; clear H; subst
         end.
  repeat constructor; apply lineFree_app; try apply lineFree_or; auto.
Qed.

Example ex_formatCitationAsText_defaults :
  JS.split JS.LF (formatCitationAsText citationA) =
    [ "OCI: 06101801781-06180334099";
      "Citing: doi:10.7717/peerj-cs.421";
      "Cited: doi:10.1108/jd-12-2013-0166";
      "Date: N/A";
      "Timespan: N/A";
      "Journal self-citation: no";
      "Author self-citation: no" ].
Proof. reflexivity. Qed.

(** The annotation lines are present exactly when the flag is "yes". *)
Lemma annotations_spec (c : Citation) :
  (In "    (Journal self-citation)" (annotations c) <-> journal_sc c = "yes") /\
  (In "    (Author self-citation)" (annotations c) <-> author_sc c = "yes") /\
  (forall x, In x (annotations c) ->
     x = "    (Journal self-citation)" \/ x = "    (Author self-citation)").
Proof.
  unfold annotations.
  repeat case_decide; simpl; repeat split; intros; 
    repeat match goal with
           | H : _ \/ _ |- _ => destruct H
           | H : False |- _ => destruct H
           end; auto; try discriminate; try contradiction.
Qed.

(** Two records, the second a journal self-citation: one annotation, in
    the second block. *)
Example ex_formatCitationsAsText_two :
  JS.split JS.LF (formatCitationsAsText [citationA; citationB]) =
    [ "[1] OCI: 06101801781-06180334099";
      "    Citing: doi:10.7717/peerj-cs.421";
      "    Cited: doi:10.1108/jd-12-2013-0166";
      "    Date: N/A";
      "";
      "[2] OCI: 0610-0618";
      "    Citing: doi:10.1/a";
      "    Cited: doi:10.1/b";
      "    Date: 2021-03-10";
      "    (Journal self-citation)" ].
Proof. reflexivity. Qed.

(* ===================================================================== *)
(** * Further properties of the normalizers                               *)
(* ===================================================================== *)

(** X1. The normalizers only touch the front of their argument: the
    result of [formatDoi] is "doi:" followed by a suffix [r] of the input,
    and what was cut in front of [r] is nothing, "doi:", one lower-case
    doi.org URL prefix, or such a URL prefix followed by "doi:"; the result
    of [formatIssn] is "issn:" followed by a suffix of the input cut after
    nothing or "issn:". No other character is dropped, added or changed. *)
Theorem normalizers_keep_suffix (s : string) :
  (exists u r, s = u ++ r /\ formatDoi s = "doi:" ++ r /\
     In u [ ""; "doi:"; "http://doi.org/"; "https://doi.org/";
            "http://doi.org/doi:"; "https://doi.org/doi:" ]) /\
  (exists u r, s = u ++ r /\ formatIssn s = "issn:" ++ r /\ In u [ ""; "issn:" ]).
Proof.
  split.
  - unfold formatDoi, removeDoiUrl.
    destruct (matchDoiUrl s) as [rest|] eqn:Em.
    + apply matchDoiUrl_Some in Em.
      destruct (JS.startsWith rest "doi:") eqn:Ed; simpl.
      * apply startsWith_true in Ed as [r ->].
        destruct Em as [-> | ->];
          [ exists "http://doi.org/doi:", r | exists "https://doi.org/doi:", r ];
          simpl; repeat split; auto 10.
      * destruct Em as [-> | ->];
          [ exists "http://doi.org/", rest | exists "https://doi.org/", rest ];
          simpl; repeat split; auto 10.
    + destruct (JS.startsWith s "doi:") eqn:Ed; simpl.
      * apply startsWith_true in Ed as [r ->].
        exists "doi:", r. simpl. repeat split; auto.
      * exists "", s. simpl. repeat split; auto.
  - unfold formatIssn.
    destruct (JS.startsWith s "issn:") eqn:Ei; simpl.
    + apply startsWith_true in Ei as [r ->].
      exists "issn:", r. simpl. repeat split; auto.
    + exists "", s. simpl. repeat split; auto.
Qed.

(** X2. The spellings of one DOI agree: for a bare identifier [x] (one
    that starts neither with "doi:" nor with a lower-case doi.org URL
    prefix), [x] itself, "doi:" ++ x, the two URL forms and the two URL
    forms of "doi:" ++ x all normalize to "doi:" ++ x. *)
Theorem formatDoi_spellings_agree (x : string) :
  JS.startsWith x "doi:" = false ->
  JS.startsWith x "http://doi.org/" = false ->
  JS.startsWith x "https://doi.org/" = false ->
  formatDoi x = "doi:" ++ x /\
  formatDoi ("doi:" ++ x) = "doi:" ++ x /\
  formatDoi ("http://doi.org/" ++ x) = "doi:" ++ x /\
  formatDoi ("https://doi.org/" ++ x) = "doi:" ++ x /\
  formatDoi ("http://doi.org/" ++ "doi:" ++ x) = "doi:" ++ x /\
  formatDoi ("https://doi.org/" ++ "doi:" ++ x) = "doi:" ++ x.
Proof.
  intros Hd Hh Hs.
  assert (Hurl : forall p rest, matchDoiUrl p = Some rest ->
                   formatDoi p = if JS.startsWith rest "doi:" then rest else "doi:" ++ rest).
  { intros p rest E. unfold formatDoi, removeDoiUrl. rewrite E.
    now destruct (JS.startsWith rest "doi:"). }
  repeat split.
  - unfold formatDoi. rewrite (removeDoiUrl_no_match x Hh Hs). now rewrite Hd.
  - rewrite (Hurl _ _ (matchDoiUrl_http x)). now rewrite Hd.
  - rewrite (Hurl _ _ (matchDoiUrl_https x)). now rewrite Hd.
Qed.

Lemma formatDoi_spellings_agree_witness :
  formatDoi "10.1108/jd-12-2013-0166" = "doi:" ++ "10.1108/jd-12-2013-0166" /\
  formatDoi ("doi:" ++ "10.1108/jd-12-2013-0166") = "doi:" ++ "10.1108/jd-12-2013-0166" /\
  formatDoi ("http://doi.org/" ++ "10.1108/jd-12-2013-0166")
    = "doi:" ++ "10.1108/jd-12-2013-0166" /\
  formatDoi ("https://doi.org/" ++ "10.1108/jd-12-2013-0166")
    = "doi:" ++ "10.1108/jd-12-2013-0166" /\
  formatDoi ("http://doi.org/" ++ "doi:" ++ "10.1108/jd-12-2013-0166")
    = "doi:" ++ "10.1108/jd-12-2013-0166" /\
  formatDoi ("https://doi.org/" ++ "doi:" ++ "10.1108/jd-12-2013-0166")
    = "doi:" ++ "10.1108/jd-12-2013-0166".
Proof.
  apply (formatDoi_spellings_agree "10.1108/jd-12-2013-0166"); reflexivity.
Defined.

(* ===================================================================== *)
(** * Further properties of the request executor                          *)
(* ===================================================================== *)

(** X3. The request [apiRequest] hands to [fetch] (the one the probe
    receives) has the base URL followed by the endpoint as its URL, always
    carries "Accept: application/json", whatever the token, and carries no
    header other than Accept and Authorization. *)
Theorem apiRequest_request_shape (endpoint : string) (accessToken : option string) :
  exists req,
    apiRequest echo endpoint accessToken = Resolved req /\
    url req = "https://api.opencitations.net/index/v2" ++ endpoint /\
    headers req !! "Accept" = Some "application/json" /\
    (forall k : string, k <> "Accept" -> k <> "Authorization" ->
       headers req !! k = None).
Proof.
  exists (buildRequest endpoint accessToken).
  split; [apply apiRequest_echo|]. split; [reflexivity|].
  simpl. unfold requestHeaders.
  destruct (JS.truthy accessToken), accessToken as [tok|]; split;
    try (intros k Hk1 Hk2);
    rewrite ?lookup_insert_ne, ?lookup_singleton_eq, ?lookup_singleton_ne;
    auto; discriminate.
Qed.

(** X4. Failures below the six operations come up unchanged: when
    [fetch] rejects with an error (a network failure), each operation
    rejects with that same error; when the response is ok and its body is
    not valid JSON, each operation rejects with the syntax error of
    [response.json()]. No operation puts a default value in the place of
    a failure. *)
Theorem operations_pass_failures_on (id : string) (accessToken : option string)
    (e : JsError) :
  (forall fetch, requestFails fetch ("/citation-count/" ++ id) accessToken e ->
     getCitationCount fetch id accessToken = Rejected e) /\
  (forall fetch, requestFails fetch ("/citations/" ++ id) accessToken e ->
     getCitations fetch id accessToken = Rejected e) /\
  (forall fetch, requestFails fetch ("/reference-count/" ++ id) accessToken e ->
     getReferenceCount fetch id accessToken = Rejected e) /\
  (forall fetch, requestFails fetch ("/references/" ++ id) accessToken e ->
     getReferences fetch id accessToken = Rejected e) /\
  (forall fetch, requestFails fetch ("/citation/" ++ id) accessToken e ->
     getCitation fetch id accessToken = Rejected e) /\
  (forall fetch, requestFails fetch ("/venue-citation-count/" ++ id) accessToken e ->
     getVenueCitationCount fetch id accessToken = Rejected e).
Proof.
  assert (R : forall (T : Type) (fetch : Fetch T) endpoint,
             requestFails fetch endpoint accessToken e ->
             apiRequest fetch endpoint accessToken = Rejected e).
  { intros T fetch endpoint [H | (r & H & Hok & Hjson & ->)];
      unfold apiRequest; rewrite H; simpl; [reflexivity|].
    now rewrite Hok, Hjson. }
  repeat split; intros fetch H; apply R in H;
    unfold getCitationCount, getCitations, getReferenceCount, getReferences,
           getCitation, getVenueCitationCount;
    now rewrite H.
Qed.

Lemma operations_pass_failures_on_witness :
  getCitations (fun _ => Rejected TypeError) "doi:10.1/x" None = Rejected TypeError /\
  getCitationCount (always (mkResponse 200%N "OK" None)) "doi:10.1/x" None
    = Rejected SyntaxError.
Proof.
  split.
  - apply (proj1 (proj2 (operations_pass_failures_on "doi:10.1/x" None TypeError))).
    left. reflexivity.
  - apply (proj1 (operations_pass_failures_on "doi:10.1/x" None SyntaxError)).
    right. eexists. repeat split.
Defined.

(* ===================================================================== *)
(** * The tool handlers                                                   *)
(* ===================================================================== *)

(** X5. The tool handlers pass a failed request on and add no failure
    of their own on a well-formed answer. Each of the six handlers sends
    its request to the endpoint of its operation for the normalized
    identifier (the DOI through [formatDoi], the ISSN through
    [formatIssn], the OCI with a leading "oci:" removed); when
    [apiRequest] rejects that request with [e], the handler rejects with
    [e]; when the response decodes to a list of the expected records, the
    handler resolves to one text, whatever the list holds (empty, or with
    a count that is not a number). *)
Theorem tools_pass_failures_on (ACCESS_TOKEN : option string) (arg : string) :
  (forall fetch,
     let endpoint := "/citation-count/" ++ formatDoi arg in
     (forall e, apiRequest fetch endpoint ACCESS_TOKEN = Rejected e ->
        citation_count fetch ACCESS_TOKEN arg = Rejected e) /\
     (forall data, decoded fetch endpoint ACCESS_TOKEN data ->
        exists t, toolText (citation_count fetch ACCESS_TOKEN arg) t)) /\
  (forall fetch,
     let endpoint := "/citations/" ++ formatDoi arg in
     (forall e, apiRequest fetch endpoint ACCESS_TOKEN = Rejected e ->
        get_citations fetch ACCESS_TOKEN arg = Rejected e) /\
     (forall data, decoded fetch endpoint ACCESS_TOKEN data ->
        exists t, toolText (get_citations fetch ACCESS_TOKEN arg) t)) /\
  (forall fetch,
     let endpoint := "/reference-count/" ++ formatDoi arg in
     (forall e, apiRequest fetch endpoint ACCESS_TOKEN = Rejected e ->
        reference_count fetch ACCESS_TOKEN arg = Rejected e) /\
     (forall data, decoded fetch endpoint ACCESS_TOKEN data ->
        exists t, toolText (reference_count fetch ACCESS_TOKEN arg) t)) /\
  (forall fetch,
     let endpoint := "/references/" ++ formatDoi arg in
     (forall e, apiRequest fetch endpoint ACCESS_TOKEN = Rejected e ->
        get_references fetch ACCESS_TOKEN arg = Rejected e) /\
     (forall data, decoded fetch endpoint ACCESS_TOKEN data ->
        exists t, toolText (get_references fetch ACCESS_TOKEN arg) t)) /\
  (forall fetch,
     let endpoint := "/citation/" ++ removeOciPrefix arg in
     (forall e, apiRequest fetch endpoint ACCESS_TOKEN = Rejected e ->
        get_citation fetch ACCESS_TOKEN arg = Rejected e) /\
     (forall data, decoded fetch endpoint ACCESS_TOKEN data ->
        exists t, toolText (get_citation fetch ACCESS_TOKEN arg) t)) /\
  (forall fetch,
     let endpoint := "/venue-citation-count/" ++ formatIssn arg in
     (forall e, apiRequest fetch endpoint ACCESS_TOKEN = Rejected e ->
        venue_citation_count fetch ACCESS_TOKEN arg = Rejected e) /\
     (forall data, decoded fetch endpoint ACCESS_TOKEN data ->
        exists t, toolText (venue_citation_count fetch ACCESS_TOKEN arg) t)).
Proof.
  repeat match goal with |- _ /\ _ => split end;
    intros fetch endpoint; subst endpoint;
    (split; [ intros e H | intros data H; apply apiRequest_decoded in H ]);
    unfold toolText, citation_count, get_citations, reference_count,
           get_references, get_citation, venue_citation_count,
           getCitationCount, getCitations, getReferenceCount, getReferences,
           getCitation, getVenueCitationCount;
    cbv zeta; rewrite H; try reflexivity;
    destruct data; simpl; eauto.
Qed.

Lemma tools_pass_failures_on_witness :
  get_citation (always notFound) (Some "tok") "oci:0610-0618"
  = Rejected (Error "API request failed: 404 Not Found").
Proof.
  apply (proj1 (proj1 (proj2 (proj2 (proj2 (proj2
           (tools_pass_failures_on (Some "tok") "oci:0610-0618")))))
           (always notFound))).
  reflexivity.
Defined.

Section CountTools.

Lemma showNumber_parseInt10_showN (n : N) :
  (n <= 2 ^ 53)%N ->
  JS.showNumber (JS.parseInt10 (JS.showN n)) = JS.showN n.
Proof.
  intros Hn. rewrite (parseInt10_showN n Hn).
  unfold JS.showNumber, JS.showMagnitude.
  destruct (Z.ltb_spec (Z.of_N n) 0); [lia|].
  destruct (Z.leb_spec (Z.of_N n) (2 ^ 53)) as [_|Hgt].
  - now rewrite N2Z.id.
  - rewrite <- pow53 in Hgt. lia.
Qed.

End CountTools.

(** X7. The count tools hand the count of the remote API back as it was
    sent: when the first element of the decoded list has as its count the
    decimal numeral of [n] (at most 2^53, the range a JavaScript number
    holds exactly), each of the three count tools resolves to one text,
    its label followed by the identifier as the user typed it (not the
    normalized one), ": " and the same numeral. *)
Theorem count_tools_round_trip (ACCESS_TOKEN : option string) (arg : string)
    (n : N) (rest : list CitationCount) :
  (n <= 2 ^ 53)%N ->
  (forall fetch,
     decoded fetch ("/citation-count/" ++ formatDoi arg) ACCESS_TOKEN
             (mkCitationCount (JS.showN n) :: rest) ->
     toolText (citation_count fetch ACCESS_TOKEN arg)
              ("Citation count for " ++ arg ++ ": " ++ JS.showN n)) /\
  (forall fetch,
     decoded fetch ("/reference-count/" ++ formatDoi arg) ACCESS_TOKEN
             (mkCitationCount (JS.showN n) :: rest) ->
     toolText (reference_count fetch ACCESS_TOKEN arg)
              ("Reference count for " ++ arg ++ ": " ++ JS.showN n)) /\
  (forall fetch,
     decoded fetch ("/venue-citation-count/" ++ formatIssn arg) ACCESS_TOKEN
             (mkCitationCount (JS.showN n) :: rest) ->
     toolText (venue_citation_count fetch ACCESS_TOKEN arg)
              ("Total citations for venue " ++ arg ++ ": " ++ JS.showN n)).
Proof.
  intros Hn. repeat split; intros fetch H; apply apiRequest_decoded in H;
    unfold toolText, citation_count, reference_count, venue_citation_count,
           getCitationCount, getReferenceCount, getVenueCitationCount;
    cbv zeta; rewrite H; simpl await; cbv beta iota;
    change (count (mkCitationCount (JS.showN n))) with (JS.showN n);
    now rewrite (showNumber_parseInt10_showN n Hn).
Qed.

Lemma count_tools_round_trip_witness :
  toolText
    (citation_count
       (always (mkResponse 200%N "OK" (Some [mkCitationCount (JS.showN 38)])))
       None "10.1108/jd-12-2013-0166")
    ("Citation count for " ++ "10.1108/jd-12-2013-0166" ++ ": " ++ JS.showN 38).
Proof.
  assert (Hn : (38 <= 2 ^ 53)%N) by (vm_compute; discriminate).
  apply (proj1 (count_tools_round_trip None "10.1108/jd-12-2013-0166" 38 [] Hn)).
  eexists. repeat split.
Defined.

(** X8. Edge cases of the count tools. On an empty list each tool reports
    the count 0. When the count string of the first element is empty or
    begins with an ASCII character that is neither white space, nor a
    sign, nor a digit (as in "n/a"), [parseInt] reads no number and the
    tool does not fail: it resolves to its usual text with "NaN" for the
    count. *)
Theorem count_tools_empty_and_nan (ACCESS_TOKEN : option string) (arg : string) :
  (forall fetch,
     decoded fetch ("/citation-count/" ++ formatDoi arg) ACCESS_TOKEN [] ->
     toolText (citation_count fetch ACCESS_TOKEN arg)
              ("Citation count for " ++ arg ++ ": 0")) /\
  (forall fetch,
     decoded fetch ("/reference-count/" ++ formatDoi arg) ACCESS_TOKEN [] ->
     toolText (reference_count fetch ACCESS_TOKEN arg)
              ("Reference count for " ++ arg ++ ": 0")) /\
  (forall fetch,
     decoded fetch ("/venue-citation-count/" ++ formatIssn arg) ACCESS_TOKEN [] ->
     toolText (venue_citation_count fetch ACCESS_TOKEN arg)
              ("Total citations for venue " ++ arg ++ ": 0")) /\
  (forall fetch d0 rest, startsPlain (count d0) = true ->
     decoded fetch ("/citation-count/" ++ formatDoi arg) ACCESS_TOKEN (d0 :: rest) ->
     toolText (citation_count fetch ACCESS_TOKEN arg)
              ("Citation count for " ++ arg ++ ": NaN")) /\
  (forall fetch d0 rest, startsPlain (count d0) = true ->
     decoded fetch ("/reference-count/" ++ formatDoi arg) ACCESS_TOKEN (d0 :: rest) ->
     toolText (reference_count fetch ACCESS_TOKEN arg)
              ("Reference count for " ++ arg ++ ": NaN")) /\
  (forall fetch d0 rest, startsPlain (count d0) = true ->
     decoded fetch ("/venue-citation-count/" ++ formatIssn arg) ACCESS_TOKEN (d0 :: rest) ->
     toolText (venue_citation_count fetch ACCESS_TOKEN arg)
              ("Total citations for venue " ++ arg ++ ": NaN")).
Proof.
  repeat split; intros;
    match goal with H : decoded _ _ _ _ |- _ => apply apiRequest_decoded in H end;
    unfold toolText, citation_count, reference_count, venue_citation_count,
           getCitationCount, getReferenceCount, getVenueCitationCount;
    cbv zeta;
    match goal with H : apiRequest _ _ _ = _ |- _ => rewrite H end;
    simpl await; cbv beta iota;
    try match goal with
        | H : startsPlain _ = true |- _ => rewrite (parseInt10_startsPlain _ H)
        end;
    reflexivity.
Qed.

Lemma count_tools_empty_and_nan_witness :
  toolText
    (reference_count
       (always (mkResponse 200%N "OK" (Some [mkCitationCount "n/a"])))
       None "10.7717/peerj-cs.421")
    ("Reference count for " ++ "10.7717/peerj-cs.421" ++ ": NaN").
Proof.
  refine (proj1 (proj2 (proj2 (proj2 (proj2
            (count_tools_empty_and_nan None "10.7717/peerj-cs.421")))))
          _ (mkCitationCount "n/a") [] _ _).
  - reflexivity.
  - eexists. repeat split.
Defined.

(** X9. The two list tools. On an empty list the text is "No citations
    found for " (or "No references found for ") followed by the identifier
    as typed; on a non-empty list it is a heading with the number of
    entries and the identifier as typed, a blank line, and the blocks of
    the entries. The literal "No citations found." of
    [formatCitationsAsText] is never the text of either tool. *)
Theorem list_tools_text (ACCESS_TOKEN : option string) (arg : string) :
  (forall fetch data,
     decoded fetch ("/citations/" ++ formatDoi arg) ACCESS_TOKEN data ->
     toolText (get_citations fetch ACCESS_TOKEN arg)
       (match data with
        | [] => "No citations found for " ++ arg
        | _ :: _ =>
            "Found " ++ JS.showN (N.of_nat (length data)) ++ " citations for " ++ arg
              ++ ":" ++ JS.nl ++ JS.nl
              ++ JS.join (JS.nl ++ JS.nl) (imap citationBlock data)
        end) /\
     ~ toolText (get_citations fetch ACCESS_TOKEN arg) "No citations found.") /\
  (forall fetch data,
     decoded fetch ("/references/" ++ formatDoi arg) ACCESS_TOKEN data ->
     toolText (get_references fetch ACCESS_TOKEN arg)
       (match data with
        | [] => "No references found for " ++ arg
        | _ :: _ =>
            "Found " ++ JS.showN (N.of_nat (length data)) ++ " references in " ++ arg
              ++ ":" ++ JS.nl ++ JS.nl
              ++ JS.join (JS.nl ++ JS.nl) (imap citationBlock data)
        end) /\
     ~ toolText (get_references fetch ACCESS_TOKEN arg) "No citations found.").
Proof.
  split; intros fetch data H; apply apiRequest_decoded in H;
    unfold toolText, get_citations, get_references, getCitations, getReferences;
    cbv zeta; rewrite H; simpl await; cbv beta;
    (destruct data as [|c rest]; (split; [reflexivity|]); intros E;
     apply (f_equal (fun p => match p with
                              | Resolved {| content := [ {| text := t |} ] |} =>
                                  JS.startsWith t "No citations found."
                              | _ => false
                              end)) in E;
     discriminate E).
Qed.

(** X10. The single-citation tool accepts an OCI with or without the
    prefix "oci:": one leading "oci:" is removed before the lookup, so
    "oci:" ++ x is looked up at the endpoint of [x], and for [x] without
    the prefix both spellings give the same text when the citation is
    found. When nothing is found the tool resolves (it does not fail) to
    "No citation found for OCI: " followed by the argument as typed. *)
Theorem get_citation_oci_prefix (ACCESS_TOKEN : option string) (x : string)
    (fetch : Fetch (list Citation)) :
  (forall c rest,
     decoded fetch ("/citation/" ++ x) ACCESS_TOKEN (c :: rest) ->
     toolText (get_citation fetch ACCESS_TOKEN ("oci:" ++ x)) (formatCitationAsText c)) /\
  (decoded fetch ("/citation/" ++ x) ACCESS_TOKEN [] ->
     toolText (get_citation fetch ACCESS_TOKEN ("oci:" ++ x))
              ("No citation found for OCI: " ++ "oci:" ++ x)) /\
  (JS.startsWith x "oci:" = false ->
     (forall c rest,
        decoded fetch ("/citation/" ++ x) ACCESS_TOKEN (c :: rest) ->
        toolText (get_citation fetch ACCESS_TOKEN x) (formatCitationAsText c)) /\
     (decoded fetch ("/citation/" ++ x) ACCESS_TOKEN [] ->
        toolText (get_citation fetch ACCESS_TOKEN x)
                 ("No citation found for OCI: " ++ x))).
Proof.
  assert (Hp : removeOciPrefix ("oci:" ++ x) = x)
    by (unfold removeOciPrefix; now rewrite stripPrefix_app).
  assert (Hn : JS.startsWith x "oci:" = false -> removeOciPrefix x = x).
  { unfold removeOciPrefix, JS.startsWith.
    now destruct (JS.stripPrefix "oci:" x). }
  repeat split; intros;
    match goal with H : decoded _ _ _ _ |- _ => apply apiRequest_decoded in H end;
    unfold toolText, get_citation, getCitation; cbv zeta;
    rewrite ?Hp, ?Hn by assumption;
    match goal with H : apiRequest _ _ _ = _ |- _ => rewrite H end;
    reflexivity.
Qed.

Lemma get_citation_oci_prefix_witness :
  toolText
    (get_citation (always (mkResponse 200%N "OK" (Some [citationB]))) None "0610-0618")
    (formatCitationAsText citationB).
Proof.
  refine (proj1 (proj2 (proj2
            (get_citation_oci_prefix None "0610-0618"
               (always (mkResponse 200%N "OK" (Some [citationB])))))
            _) citationB [] _).
  - reflexivity.
  - eexists. repeat split.
Defined.

(* ===================================================================== *)
(** * Configuration: the access token                                     *)
(* ===================================================================== *)

Section Splitting.

Variable sep : ascii.

Lemma includes_char_cons (c : ascii) (r : string) :
  JS.includes (String c r) (String sep "") = false <->
  Ascii.eqb c sep = false /\ JS.includes r (String sep "") = false.
Proof.
  change (JS.includes (String c r) (String sep ""))
    with (match (if Ascii.eqb sep c then Some r else None) with
          | Some _ => true
          | None => false
          end || JS.includes r (String sep "")).
  rewrite (Ascii.eqb_sym sep c).
  destruct (Ascii.eqb c sep); simpl; [|tauto].
  split; [discriminate | intros [? _]; discriminate].
Qed.

(** A string without the separator is not cut. *)
Lemma split_without_sep (x : string) :
  JS.includes x (String sep "") = false -> JS.split sep x = [x].
Proof.
  induction x as [|c x IH]; intros H; [reflexivity|].
  apply includes_char_cons in H as [Hc H].
  now rewrite split_cons, Hc, (IH H).
Qed.

(** The first cut is at the first separator. *)
Lemma split_at_first_sep (a b : string) :
  JS.includes a (String sep "") = false ->
  JS.split sep (a ++ String sep b) = a :: JS.split sep b.
Proof.
  induction a as [|c a IH]; intros H.
  - change ("" ++ String sep b) with (String sep b).
    now rewrite split_cons, Ascii.eqb_refl.
  - apply includes_char_cons in H as [Hc H].
    change (String c a ++ String sep b) with (String c (a ++ String sep b)).
    now rewrite split_cons, Hc, (IH H).
Qed.

End Splitting.

Section TokenFlag.

Let isFlag := fun arg : string => JS.startsWith arg "--token=".

Lemma find_no_flag (argv : list string) :
  noTokenFlag argv -> JS.find isFlag argv = None.
Proof.
  induction 1 as [|a l Ha _ IH]; simpl; [reflexivity|].
  unfold isFlag at 1. now rewrite Ha.
Qed.

Lemma find_first_flag (pre post : list string) (v : string) :
  noTokenFlag pre ->
  JS.find isFlag (app pre (("--token=" ++ v) :: post)) = Some ("--token=" ++ v).
Proof.
  induction 1 as [|a l Ha _ IH]; simpl.
  - reflexivity.
  - unfold isFlag at 1. now rewrite Ha.
Qed.

(** The value of the first token flag is the second piece of the flag cut
    at its "=" signs. *)
Lemma getAccessToken_flag (pre post : list string) (v : string)
    (env : gmap string string) :
  noTokenFlag pre ->
  getAccessToken (app pre (("--token=" ++ v) :: post)) env
  = head (JS.split "="%char v).
Proof.
  intros Hpre. unfold getAccessToken.
  fold isFlag. rewrite (find_first_flag pre post v Hpre).
  change (JS.truthy (Some ("--token=" ++ v))) with true. cbv iota.
  change (JS.split "="%char ("--token=" ++ v))
    with ("--token" :: JS.split "="%char v).
  unfold JS.at_. simpl. now destruct (JS.split "="%char v).
Qed.

End TokenFlag.

(** X11. Where the access token comes from. Without a command-line
    argument starting with "--token=", the token is the value of the
    environment variable OPENCITATIONS_ACCESS_TOKEN (absent when the
    variable is unset). With such an argument, the first one wins over
    later ones and over the environment, and a value without "=" is taken
    verbatim. *)
Theorem getAccessToken_sources (argv : list string) (env : gmap string string) :
  (noTokenFlag argv ->
     getAccessToken argv env = env !! "OPENCITATIONS_ACCESS_TOKEN") /\
  (forall pre v post,
     argv = (app pre (("--token=" ++ v) :: post)) ->
     noTokenFlag pre ->
     JS.includes v "=" = false ->
     getAccessToken argv env = Some v).
Proof.
  split.
  - intros H. unfold getAccessToken. now rewrite (find_no_flag argv H).
  - intros pre v post -> Hpre Hv.
    rewrite (getAccessToken_flag pre post v env Hpre).
    now rewrite (split_without_sep "="%char v Hv).
Qed.

Lemma getAccessToken_sources_witness :
  getAccessToken ["node"; "index.js"; "--token=abc"; "--token=xyz"]
                 {[ "OPENCITATIONS_ACCESS_TOKEN" := "from-env" ]}
  = Some "abc".
Proof.
  refine (proj2 (getAccessToken_sources _ _) ["node"; "index.js"] "abc" ["--token=xyz"]
                eq_refl _ eq_refl).
  repeat constructor.
Defined.

(** X12. A token that holds an "=" sign is cut short: the value of the
    flag "--token=" ++ a ++ "=" ++ b, for [a] without "=", is [a] alone;
    the "=" and everything after it are lost. *)
Theorem getAccessToken_cut_at_equals (pre post : list string) (a b : string)
    (env : gmap string string) :
  noTokenFlag pre ->
  JS.includes a "=" = false ->
  getAccessToken (app pre (("--token=" ++ a ++ "=" ++ b) :: post)) env = Some a.
Proof.
  intros Hpre Ha.
  rewrite (getAccessToken_flag pre post (a ++ "=" ++ b) env Hpre).
  change (a ++ "=" ++ b) with (a ++ String "="%char b).
  now rewrite (split_at_first_sep "="%char a b Ha).
Qed.

Lemma getAccessToken_cut_at_equals_witness :
  getAccessToken (app ["node"; "index.js"] (("--token=" ++ "c2VjcmV0" ++ "=" ++ "=") :: []))
                 ∅
  = Some "c2VjcmV0".
Proof.
  apply (getAccessToken_cut_at_equals ["node"; "index.js"] [] "c2VjcmV0" "=" ∅).
  - repeat constructor.
  - reflexivity.
Defined.

(** X13. An empty flag hides the environment: when the first token flag
    is exactly "--token=", the token is the empty string even if the
    environment variable holds a token, so the warning is printed and no
    request carries an Authorization header. *)
Theorem empty_flag_hides_environment (pre post : list string)
    (env : gmap string string) (endpoint : string) :
  noTokenFlag pre ->
  getAccessToken (app pre ("--token=" :: post)) env = Some "" /\
  startupWarning (getAccessToken (app pre ("--token=" :: post)) env) <> [] /\
  headers (buildRequest endpoint (getAccessToken (app pre ("--token=" :: post)) env))
    !! "Authorization" = None.
Proof.
  intros Hpre.
  assert (E : getAccessToken (app pre ("--token=" :: post)) env = Some "")
    by exact (getAccessToken_flag pre post "" env Hpre).
  rewrite E. split; [reflexivity|]. split; [discriminate|].
  exact no_authorization_by_default.
Qed.

Lemma empty_flag_hides_environment_witness :
  getAccessToken (app ["node"; "index.js"] ("--token=" :: []))
                 {[ "OPENCITATIONS_ACCESS_TOKEN" := "from-env" ]} = Some "" /\
  startupWarning
    (getAccessToken (app ["node"; "index.js"] ("--token=" :: []))
                    {[ "OPENCITATIONS_ACCESS_TOKEN" := "from-env" ]}) <> [] /\
  headers (buildRequest "/citations/doi:10.1/x"
             (getAccessToken (app ["node"; "index.js"] ("--token=" :: []))
                             {[ "OPENCITATIONS_ACCESS_TOKEN" := "from-env" ]}))
    !! "Authorization" = None.
Proof.
  apply (empty_flag_hides_environment ["node"; "index.js"] []).
  repeat constructor.
Defined.

(** X14. The warning tells the truth about the requests: the three
    warning lines are printed exactly when the requests built with the
    token carry no Authorization header; when nothing is printed, the
    header is there. *)
Theorem startupWarning_iff_no_header (ACCESS_TOKEN : option string) (endpoint : string) :
  (startupWarning ACCESS_TOKEN = [] <->
     is_Some (headers (buildRequest endpoint ACCESS_TOKEN) !! "Authorization")) /\
  (length (startupWarning ACCESS_TOKEN) = 3 <->
     headers (buildRequest endpoint ACCESS_TOKEN) !! "Authorization" = None).
Proof.
  unfold startupWarning. simpl. unfold requestHeaders.
  destruct ACCESS_TOKEN as [[|c tok]|]; simpl;
    rewrite ?lookup_insert_eq, ?no_authorization_by_default;
    (split; split; intros H; try reflexivity; try discriminate; eauto;
     try (destruct H; discriminate)).
Qed.

(* ===================================================================== *)
(** * The lines of a formatted list                                       *)
(* ===================================================================== *)

Section ListLines.

Lemma string_app_assoc (a b c : string) : (a ++ b) ++ c = a ++ b ++ c.
Proof. induction a as [|x a IH]; simpl; [reflexivity | now rewrite IH]. Qed.

Lemma lineFree_string_of_uint (d : Decimal.uint) :
  lineFree (NilEmpty.string_of_uint d) = true.
Proof.
  induction d; simpl; try reflexivity; apply lineFree_cons; split; auto.
Qed.

Lemma lineFree_showN (n : N) : lineFree (JS.showN n) = true.
Proof. apply lineFree_string_of_uint. Qed.

Lemma lineFree_annotations (c : Citation) :
  Forall (fun x => lineFree x = true) (annotations c).
Proof. unfold annotations. repeat case_decide; repeat constructor. Qed.

Lemma lineFree_blockLines (i : nat) (c : Citation) :
  blockFieldsLineFree c -> Forall (fun x => lineFree x = true) (blockLines i c).
Proof.
  intros (Ho & Hci & Hcd & Hcr). unfold blockLines.
  apply Forall_app. split; [|apply lineFree_annotations].
  repeat constructor; repeat apply lineFree_app;
    try apply lineFree_or; try apply lineFree_showN; auto.
Qed.

Lemma blockLines_nonempty (i : nat) (c : Citation) : blockLines i c <> [].
Proof. discriminate. Qed.

(** Cutting a joined group that is followed by a line feed. *)
Lemma split_join_then (ls : list string) (y : string) :
  ls <> [] -> Forall (fun x => lineFree x = true) ls ->
  JS.split JS.LF (JS.join JS.nl ls ++ JS.nl ++ y) = app ls (JS.split JS.LF y).
Proof.
  induction ls as [|x [|x' r] IH]; intros Hne Hl.
  - congruence.
  - inversion Hl; subst. now apply split_app_nl.
  - inversion Hl as [|? ? Hx Hr]; subst.
    change (JS.join JS.nl (x :: x' :: r)) with (x ++ JS.nl ++ JS.join JS.nl (x' :: r)).
    rewrite !string_app_assoc, (split_app_nl _ _ Hx).
    simpl app. f_equal. apply IH; [discriminate | exact Hr].
Qed.

(** Cutting groups joined by a blank line. *)
Lemma split_join_groups (groups : list (list string)) :
  groups <> [] ->
  Forall (fun g => g <> [] /\ Forall (fun x => lineFree x = true) g) groups ->
  JS.split JS.LF (JS.join (JS.nl ++ JS.nl) (map (JS.join JS.nl) groups))
  = separated groups.
Proof.
  induction groups as [|g [|g' r] IH]; intros Hne Hg.
  - congruence.
  - inversion Hg as [|? ? [Hn Hl] _]; subst. simpl. now apply split_join.
  - inversion Hg as [|? ? [Hn Hl] Hr]; subst.
    change (JS.join (JS.nl ++ JS.nl) (map (JS.join JS.nl) (g :: g' :: r)))
      with (JS.join JS.nl g ++ JS.nl ++
              (JS.nl ++ JS.join (JS.nl ++ JS.nl) (map (JS.join JS.nl) (g' :: r)))).
    rewrite (split_join_then _ _ Hn Hl).
    change (separated (g :: g' :: r)) with (app g ("" :: separated (g' :: r))).
    f_equal.
    change (JS.nl ++ JS.join (JS.nl ++ JS.nl) (map (JS.join JS.nl) (g' :: r)))
      with (String JS.LF (JS.join (JS.nl ++ JS.nl) (map (JS.join JS.nl) (g' :: r)))).
    rewrite split_cons, Ascii.eqb_refl. f_equal.
    apply IH; [discriminate | exact Hr].
Qed.

(** The lines of a formatted list, for printed fields without line
    feed. *)
Lemma lines_of_list (cs : list Citation) :
  cs <> [] ->
  Forall blockFieldsLineFree cs ->
  JS.split JS.LF (formatCitationsAsText cs) = separated (imap blockLines cs).
Proof.
  intros Hne Hf.
  assert (E : formatCitationsAsText cs
              = JS.join (JS.nl ++ JS.nl) (map (JS.join JS.nl) (imap blockLines cs))).
  { destruct cs as [|c r]; [congruence|].
    change (formatCitationsAsText (c :: r))
      with (JS.join (JS.nl ++ JS.nl) (imap citationBlock (c :: r))).
    f_equal. change (map (JS.join JS.nl) (imap blockLines (c :: r)))
      with (JS.join JS.nl <$> imap blockLines (c :: r)).
    rewrite fmap_imap. apply imap_ext. intros i x _. apply citationBlock_eq. }
  rewrite E. apply split_join_groups.
  - destruct cs; [congruence | discriminate].
  - apply Forall_lookup. intros i g Hg.
    apply list_lookup_imap_Some in Hg as (c & Hc & ->).
    split; [apply blockLines_nonempty|].
    apply lineFree_blockLines. exact (Forall_lookup_1 _ _ _ _ Hf Hc).
Qed.

End ListLines.

(** C9. [formatCitationsAsText] of the empty list is exactly
    "No citations found."; of a non-empty list it is one block per entry,
    the blocks joined by a blank line; the block of the entry at index [i]
    is the four lines "[i+1] OCI", Citing, Cited, Date, followed by the
    journal annotation line exactly when [journal_sc] equals "yes" and by
    the author annotation line exactly when [author_sc] equals "yes".
    Read back: when the printed fields hold no line feed, cutting the text
    at its line feeds gives these lines, entry after entry, with exactly
    one empty line between two entries. *)
Theorem formatCitationsAsText_blocks :
  formatCitationsAsText [] = "No citations found." /\
  forall cs : list Citation, cs <> [] ->
    (exists blocks : list string,
      formatCitationsAsText cs = JS.join (JS.nl ++ JS.nl) blocks /\
      length blocks = length cs /\
      forall (i : nat) (c : Citation), cs !! i = Some c ->
        exists d, rendered (creation c) "N/A" d /\
          blocks !! i =
            Some (JS.join JS.nl
                    (app [ "[" ++ JS.showN (N.of_nat (i + 1)) ++ "] OCI: " ++ oci c;
                           "    Citing: " ++ citing c;
                           "    Cited: " ++ cited c;
                           "    Date: " ++ d ]
                         (annotations c)))) /\
    (Forall blockFieldsLineFree cs ->
       JS.split JS.LF (formatCitationsAsText cs) = separated (imap blockLines cs)) /\
    (forall c : Citation,
       (In "    (Journal self-citation)" (annotations c) <-> journal_sc c = "yes") /\
       (In "    (Author self-citation)" (annotations c) <-> author_sc c = "yes") /\
       (forall x, In x (annotations c) ->
          x = "    (Journal self-citation)" \/ x = "    (Author self-citation)")).
Proof.
  split; [reflexivity|].
  intros cs Hne. split; [|split].
  - exists (imap citationBlock cs). split; [|split].
    + destruct cs; [congruence | reflexivity].
    + apply length_imap.
    + intros i c Hc. exists (JS.or (creation c) "N/A").
      split; [apply rendered_or; discriminate|].
      rewrite list_lookup_imap, Hc.
      exact (f_equal Some (citationBlock_eq i c)).
  - intros Hf. apply lines_of_list; assumption.
  - apply annotations_spec.
Qed.

Lemma formatCitationsAsText_blocks_witness :
  JS.split JS.LF (formatCitationsAsText [citationA; citationB])
  = [ "[1] OCI: 06101801781-06180334099";
      "    Citing: doi:10.7717/peerj-cs.421";
      "    Cited: doi:10.1108/jd-12-2013-0166";
      "    Date: N/A";
      "";
      "[2] OCI: 0610-0618";
      "    Citing: doi:10.1/a";
      "    Cited: doi:10.1/b";
      "    Date: 2021-03-10";
      "    (Journal self-citation)" ].
Proof.
  refine (proj1 (proj2 (proj2 formatCitationsAsText_blocks [citationA; citationB] _)) _).
  - discriminate.
  - repeat constructor.
Defined.

(** X6. The lines of a formatted list. For a non-empty list of records
    whose printed fields (oci, citing, cited, creation) hold no line feed,
    cutting [formatCitationsAsText] at its line feeds gives, entry after
    entry, the four lines of the entry (index from 1 with the OCI, Citing,
    Cited, Date with "N/A" for an empty date) and its annotation lines,
    with exactly one empty line between two entries and none at the end. *)
Theorem formatCitationsAsText_lines (cs : list Citation) :
  cs <> [] ->
  Forall blockFieldsLineFree cs ->
  JS.split JS.LF (formatCitationsAsText cs) = separated (imap blockLines cs).
Proof.
  intros Hne Hf.
  assert (E : formatCitationsAsText cs
              = JS.join (JS.nl ++ JS.nl) (map (JS.join JS.nl) (imap blockLines cs))).
  { destruct cs as [|c r]; [congruence|].
    change (formatCitationsAsText (c :: r))
      with (JS.join (JS.nl ++ JS.nl) (imap citationBlock (c :: r))).
    f_equal. change (map (JS.join JS.nl) (imap blockLines (c :: r)))
      with (JS.join JS.nl <$> imap blockLines (c :: r)).
    rewrite fmap_imap. apply imap_ext. intros i x _. apply citationBlock_eq. }
  rewrite E. apply split_join_groups.
  - destruct cs; [congruence | discriminate].
  - apply Forall_lookup. intros i g Hg.
    apply list_lookup_imap_Some in Hg as (c & Hc & ->).
    split; [apply blockLines_nonempty|].
    apply lineFree_blockLines. exact (Forall_lookup_1 _ _ _ _ Hf Hc).
Qed.

Lemma formatCitationsAsText_lines_witness :
  JS.split JS.LF (formatCitationsAsText [citationA; citationB])
  = separated (imap blockLines [citationA; citationB]).
Proof.
  apply (formatCitationsAsText_lines [citationA; citationB]).
  - discriminate.
  - repeat constructor.
Defined.

(* ===================================================================== *)
(** * Counts with trailing text                                           *)
(* ===================================================================== *)

Section TrailingText.

Local Open Scope Z_scope.

Variables (c : ascii) (r : string).
Hypothesis not_a_digit : JS.digitVal c = None.

Lemma digits_stop (acc : option Z) : JS.digits (String c r) acc = acc.
Proof. simpl. now rewrite not_a_digit. Qed.

Lemma digits_of_uint_acc_then (d : Decimal.uint) (acc : positive) :
  JS.digits (NilEmpty.string_of_uint d ++ String c r) (Some (Z.pos acc))
  = Some (Z.pos (Pos.of_uint_acc d acc)).
Proof.
  revert acc. induction d; intros acc;
    [ apply digits_stop | .. ];
    simpl; unfold JS.digitVal; simpl; rewrite <- IHd; do 2 f_equal; lia.
Qed.

Lemma digits_of_uint_then (d : Decimal.uint) :
  JS.digits (NilEmpty.string_of_uint d ++ String c r) (Some 0)
  = Some (Z.of_N (Pos.of_uint d)).
Proof.
  induction d; [ apply digits_stop | .. ];
    simpl; unfold JS.digitVal; simpl;
    try exact IHd; apply digits_of_uint_acc_then.
Qed.

Lemma digits_numeral_then (d : Decimal.uint) :
  d <> Decimal.Nil ->
  JS.digits (NilEmpty.string_of_uint d ++ String c r) None
  = Some (Z.of_N (N.of_uint d)).
Proof.
  intros Hd. destruct d; [congruence| ..];
    simpl; unfold JS.digitVal; simpl;
    lazymatch goal with
    | |- context [JS.digits _ (Some ?z)] =>
        let z' := eval vm_compute in z in change z with z'
    end;
    first [ apply digits_of_uint_then | apply digits_of_uint_acc_then ].
Qed.

Lemma parseInt10_of_uint_then (d : Decimal.uint) :
  d <> Decimal.Nil ->
  JS.parseInt10 (NilEmpty.string_of_uint d ++ String c r)
  = JS.fromMathInt 1 (Z.of_N (N.of_uint d)).
Proof.
  intros Hd. pose proof (digits_numeral_then d Hd) as E.
  destruct d; [congruence| ..];
    lazymatch goal with
    | |- JS.parseInt10 ?x = _ =>
        change (JS.parseInt10 x)
          with (match JS.digits x None with
                | Some m => JS.fromMathInt 1 m
                | None => JS.NaN
                end)
    end;
    now rewrite E.
Qed.

Lemma parseInt10_showN_then (n : N) :
  (n <= 2 ^ 53)%N ->
  JS.parseInt10 (JS.showN n ++ String c r) = JS.Num (Z.of_N n).
Proof.
  intros Hn. unfold JS.showN.
  rewrite (parseInt10_of_uint_then _ (showN_nonnil n)), DecimalN.Unsigned.of_to.
  apply fromMathInt_exact. rewrite <- pow53. lia.
Qed.

End TrailingText.

(** X15. Text after the number is dropped without notice: when the count
    string of the first element is the decimal numeral of [n] (at most
    2^53) followed by text that starts with a character other than a
    digit, each of the three count operations resolves to [n]; "3.9"
    counts as 3 and "38 citations" as 38. *)
Theorem count_ignores_trailing_text (id : string) (accessToken : option string)
    (n : N) (c : ascii) (r : string) (rest : list CitationCount) :
  (n <= 2 ^ 53)%N ->
  JS.digitVal c = None ->
  (forall fetch,
     decoded fetch ("/citation-count/" ++ id) accessToken
             (mkCitationCount (JS.showN n ++ String c r) :: rest) ->
     getCitationCount fetch id accessToken = Resolved (JS.Num (Z.of_N n))) /\
  (forall fetch,
     decoded fetch ("/reference-count/" ++ id) accessToken
             (mkCitationCount (JS.showN n ++ String c r) :: rest) ->
     getReferenceCount fetch id accessToken = Resolved (JS.Num (Z.of_N n))) /\
  (forall fetch,
     decoded fetch ("/venue-citation-count/" ++ id) accessToken
             (mkCitationCount (JS.showN n ++ String c r) :: rest) ->
     getVenueCitationCount fetch id accessToken = Resolved (JS.Num (Z.of_N n))).
Proof.
  intros Hn Hc. repeat split; intros fetch H; apply apiRequest_decoded in H;
    unfold getCitationCount, getReferenceCount, getVenueCitationCount;
    rewrite H; simpl await; cbv beta iota;
    change (count (mkCitationCount (JS.showN n ++ String c r)))
      with (JS.showN n ++ String c r);
    now rewrite (parseInt10_showN_then c r Hc n Hn).
Qed.

Lemma count_ignores_trailing_text_witness :
  getCitationCount
    (always (mkResponse 200%N "OK"
               (Some [mkCitationCount (JS.showN 3 ++ String "."%char "9")])))
    "doi:10.1/x" None
  = Resolved (JS.Num (Z.of_N 3)).
Proof.
  assert (Hn : (3 <= 2 ^ 53)%N) by (vm_compute; discriminate).
  apply (proj1 (count_ignores_trailing_text "doi:10.1/x" None 3 "."%char "9" []
                  Hn eq_refl)).
  eexists. repeat split.
Defined.
